(** * MyBidFit presentation asset generators

    A shallow embedding of the four scripts under
    [business/mybidfit-presentation]:

      - [generate_business_icons.py]
      - [generate_dashboard_mockup.py]
      - [generate_hero_image.py]
      - [generate_investment_visual.py]

    Each script reads a credential from the environment, POSTs a text-to-image
    request, decodes the first artifact of the JSON answer and saves it as PNG
    and as WebP.  Everything outside the scripts (environment, network, base64,
    PIL, file system) is gathered in a [World] of oracles; the scripts themselves
    are written in a state-and-exception monad whose state keeps the file system
    and the trace of the calls made, so that an exception leaves the effects that
    happened before it in place, as in Python. *)

From Stdlib Require Import ZArith QArith Ascii String.
From stdpp Require Import base gmap strings list.
Close Scope Q_scope.
Set Warnings "-register-all".
Open Scope string_scope.
Open Scope Z_scope.

(** ** Python values *)

(** The exception classes the scripts can meet.  The first four are subclasses
    of [requests.exceptions.RequestException] (the JSON decoding error of
    [Response.json] is one of them since requests 2.27); all of them are
    subclasses of [Exception]. *)
Inductive exn :=
| ConnectionError
| Timeout
| HTTPError (status : Z)
| JSONDecodeError
| TypeError
| KeyError (key : string)
| IndexError
| ValueError
| BinasciiError
| UnidentifiedImageError
| OSError
| PermissionError
| FileExistsError.

Definition is_RequestException (e : exn) : bool :=
  match e with
  | ConnectionError | Timeout | HTTPError _ | JSONDecodeError => true
  | _ => false
  end.

(** What [json.loads] can return. *)
Inductive json :=
| JNull
| JBool (b : bool)
| JInt (z : Z)
| JFloat (q : Q)
| JStr (s : string)
| JArr (l : list json)
| JObj (m : gmap string json).

(** A decoded [PIL.Image]: its [size] and its pixel data. *)
Record Image := { size : Z * Z; pixels : list Z }.

Inductive Format := PNG | WebP.

(** ** Requests and responses *)

Record TextPrompt := { text : string; weight : Q }.

(** The [data] dictionary of the scripts: the same seven keys everywhere. *)
Record Payload := {
  text_prompts : list TextPrompt;
  cfg_scale : Q;
  height : Z;
  width : Z;
  samples : Z;
  steps : Z;
  style_preset : string
}.

(** The arguments of one [requests.post(url, headers=, json=, timeout=)]. *)
Record Request := {
  req_url : string;
  req_headers : list (string * string);
  req_json : Payload;
  req_timeout : Z
}.

(** A [requests.Response]: the status code and the body, [None] when the body
    is not JSON. *)
Record Response := { status_code : Z; body : option json }.

Inductive PostResult :=
| PostRaises (e : exn)
| PostReturns (r : Response).

(** ** File system, trace and state *)

(** What a path holds after [Image.save]: the image with the format and the
    [quality] it was saved with, or the remains of a save that failed. *)
Inductive File :=
| Stored (fmt : Format) (quality : Z) (img : Image)
| Truncated.

Record FS := { dirs : gset string; files : gmap string File }.

Inductive Msg :=
| MsgKeyNotSet
| MsgGenerating (name : string)
| MsgGenerated (what : string)
| MsgOriginal (path : string)
| MsgWebOptimized (path : string)
| MsgDimensions (w h : Z)
| MsgNoImageData (what : string) (result : option json)
| MsgRequestFailed (what : string) (e : exn)
| MsgErrorGenerating (what : string) (e : exn)
| MsgSummaryHeader
| MsgSummaryCount (success_count : Z)
| MsgLocation
| MsgIconDimensions
| MsgBothVersions.

Inductive Event :=
| EvPost (req : Request)
| EvMakedirs (path : string) (exist_ok : bool)
| EvSave (path : string) (fmt : Format) (quality : Z)
| EvPrint (m : Msg).

Record State := { fs : FS; trace : list Event }.

(** The requests sent so far, oldest first. *)
Definition posts (tr : list Event) : list Request :=
  omap (λ ev, match ev with EvPost r => Some r | _ => None end) tr.

(** ** The world outside the scripts *)

Record World := {
  (** [os.environ] *)
  environ : gmap string string;
  (** what the [n]-th POST of the process yields ([n] counts from 0) *)
  http : nat → Request → PostResult;
  (** [base64.b64decode] on a [str]: the bytes, or the exception it raises *)
  b64decode : string → exn + list Byte.byte;
  (** [Image.open] on the bytes: the image, or the exception it raises *)
  pil_open : list Byte.byte → exn + Image;
  (** the error of [os.makedirs] on a directory that does not exist yet *)
  mkdir_fault : string → option exn;
  (** the error of [Image.save], and whether a truncated file is left behind *)
  save_fault : string → Format → Image → option (exn * bool)
}.

(** ** The monad: state that survives exceptions *)

Definition M (A : Type) : Type := State → (exn + A) * State.

Definition ret {A} (a : A) : M A := λ st, (inr a, st).

Definition bind {A B} (m : M A) (k : A → M B) : M B := λ st,
  match m st with
  | (inl e, st') => (inl e, st')
  | (inr a, st') => k a st'
  end.

Declare Scope py_scope.
Delimit Scope py_scope with py.
Bind Scope py_scope with M.
Notation "x ← y ; z" := (bind y (λ x, z))
  (at level 20, y at level 100, z at level 200, only parsing) : py_scope.
Notation "x ;; z" := (bind x (λ _, z))
  (at level 100, z at level 200, only parsing, right associativity) : py_scope.
Open Scope py_scope.

(** A call without effects, as a step of the monad. *)
Definition lift {A} (r : exn + A) : M A := λ st, (r, st).

(** [try: body  except Exception as e: handler e]. Every [exn] is an
    [Exception]. *)
Definition try_except {A} (body : M A) (handler : exn → M A) : M A := λ st,
  match body st with
  | (inl e, st') => handler e st'
  | (inr a, st') => (inr a, st')
  end.

Definition log (ev : Event) (st : State) : State :=
  {| fs := fs st; trace := trace st ++ [ev] |}.

Definition set_fs (f : FS) (st : State) : State :=
  {| fs := f; trace := trace st |}.

(** [print(...)]: the line goes to the trace.  Standard output is taken to
    accept every line, so the call itself raises nothing. *)
Definition print (m : Msg) : M unit := λ st, (inr tt, log (EvPrint m) st).

(** [for x in l: acc = body x acc] *)
Fixpoint for_each {A B} (l : list A) (body : A → B → M B) (acc : B) : M B :=
  match l with
  | [] => ret acc
  | x :: l' => acc' ← body x acc; for_each l' body acc'
  end.

(** ** Library calls *)

(** [os.getenv(name)] *)
Definition os_getenv (w : World) (name : string) : M (option string) :=
  ret (environ w !! name).

(** [not v] on the result of [os.getenv]: [None] and the empty string are
    falsy. *)
Definition py_not (v : option string) : bool :=
  match v with
  | None => true
  | Some s => bool_decide (s = "")
  end.

(** [f"{v}"] on the result of [os.getenv] *)
Definition py_str (v : option string) : string :=
  match v with
  | None => "None"
  | Some s => s
  end.

(** [requests.post(url, headers=headers, json=data, timeout=timeout)] *)
Definition requests_post (w : World) (url : string)
    (headers : list (string * string)) (data : Payload) (timeout : Z)
    : M Response := λ st,
  let req := {| req_url := url; req_headers := headers;
                req_json := data; req_timeout := timeout |} in
  match http w (length (posts (trace st))) req with
  | PostRaises e => (inl e, log (EvPost req) st)
  | PostReturns r => (inr r, log (EvPost req) st)
  end.

(** The calls below touch neither the file system nor the network: they
    return a value or raise, and enter the monad through [lift]. *)

(** [Response.raise_for_status]: raises on the 4xx and the 5xx codes only. *)
Definition is_error_status (status : Z) : bool :=
  (400 <=? status) && (status <? 600).

Definition raise_for_status (r : Response) : exn + unit :=
  if is_error_status (status_code r) then inl (HTTPError (status_code r))
  else inr tt.

(** [Response.json] *)
Definition response_json (r : Response) : exn + json :=
  match body r with
  | Some v => inr v
  | None => inl JSONDecodeError
  end.

Fixpoint contains_str (needle hay : string) : bool :=
  String.prefix needle hay ||
  match hay with
  | EmptyString => false
  | String _ rest => contains_str needle rest
  end.

(** [key in v] for a [str] key: key membership on a dict, element membership
    on a list, substring test on a str, [TypeError] on the rest. *)
Definition py_in (key : string) (v : json) : exn + bool :=
  match v with
  | JObj m => inr (bool_decide (is_Some (m !! key)))
  | JArr l =>
      inr (existsb (λ x, match x with
                         | JStr s => bool_decide (s = key)
                         | _ => false
                         end) l)
  | JStr s => inr (contains_str key s)
  | _ => inl TypeError
  end.

(** [v[key]] for a [str] key *)
Definition getitem_key (v : json) (key : string) : exn + json :=
  match v with
  | JObj m =>
      match m !! key with
      | Some x => inr x
      | None => inl (KeyError key)
      end
  | _ => inl TypeError
  end.

(** [v[i]] for a non-negative [int] index.  The keys of a decoded JSON object
    are strings, so an [int] is never among them. *)
Definition getitem_idx (v : json) (i : nat) : exn + json :=
  match v with
  | JArr l =>
      match l !! i with
      | Some x => inr x
      | None => inl IndexError
      end
  | JStr s =>
      match String.get i s with
      | Some c => inr (JStr (String c EmptyString))
      | None => inl IndexError
      end
  | JObj _ => inl (KeyError "0")
  | _ => inl TypeError
  end.

(** [base64.b64decode(v)] *)
Definition base64_b64decode (w : World) (v : json) : exn + list Byte.byte :=
  match v with
  | JStr s => b64decode w s
  | _ => inl TypeError
  end.

(** [Image.open(io.BytesIO(data))] *)
Definition Image_open (w : World) (data : list Byte.byte) : exn + Image :=
  pil_open w data.

(** The proper ancestors of a path: ["/a/b/c"] has ["/a"] and ["/a/b"]. *)
Fixpoint ancestors_from (pre rest : string) : list string :=
  match rest with
  | EmptyString => []
  | String c rest' =>
      (if bool_decide (c = "/"%char) && negb (bool_decide (pre = ""))
       then [pre] else [])
      ++ ancestors_from (pre ++ String c EmptyString) rest'
  end.

Definition ancestors (path : string) : list string :=
  ancestors_from "" path.

(** [os.makedirs(name, exist_ok=exist_ok)]: on an existing directory it does
    nothing or raises [FileExistsError]; otherwise it creates the directory
    with the ancestors that are missing, unless the world refuses.  A refused
    call is taken to leave the set of directories as it was: the ancestors the
    real call may have created before it failed are not tracked. *)
Definition os_makedirs (w : World) (name : string) (exist_ok : bool)
    : M unit := λ st,
  let st1 := log (EvMakedirs name exist_ok) st in
  if bool_decide (name ∈ dirs (fs st)) then
    if exist_ok then (inr tt, st1) else (inl FileExistsError, st1)
  else
    match mkdir_fault w name with
    | Some e => (inl e, st1)
    | None =>
        (inr tt,
         set_fs {| dirs := dirs (fs st) ∪ {[name]} ∪ list_to_set (ancestors name);
                   files := files (fs st) |} st1)
    end.

(** [image.save(path, fmt, quality=quality)] *)
Definition Image_save (w : World) (image : Image) (path : string)
    (fmt : Format) (quality : Z) : M unit := λ st,
  let st1 := log (EvSave path fmt quality) st in
  match save_fault w path fmt image with
  | Some (e, leaves_file) =>
      (inl e,
       if leaves_file
       then set_fs {| dirs := dirs (fs st);
                      files := <[path := Truncated]> (files (fs st)) |} st1
       else st1)
  | None =>
      (inr tt,
       set_fs {| dirs := dirs (fs st);
                 files := <[path := Stored fmt quality image]> (files (fs st)) |}
              st1)
  end.

(** ** Constants of the scripts *)

Definition url : string :=
  "https://api.stability.ai/v1/generation/stable-diffusion-xl-1024-v1-0/text-to-image".

Definition headers_of (api_key : option string) : list (string * string) :=
  [ ("Accept", "application/json");
    ("Authorization", "Bearer " ++ py_str api_key);
    ("Content-Type", "application/json") ].

Definition assets_dir : string :=
  "/mnt/c/Users/dnice/DJ Programs/mybidfit_mini/business/mybidfit-presentation/assets".

Definition icons_dir : string :=
  "/mnt/c/Users/dnice/DJ Programs/mybidfit_mini/business/mybidfit-presentation/assets/icons".

(** The prompts are the string literals of the scripts, line breaks and
    indentation included. *)

Definition prompt_prospecting : string :=
"Professional business icon for 'Prospecting', 
            magnifying glass with business opportunities, search and discovery concept,
            clean modern icon design, deep blue (#1e3a8a) and bright blue (#3b82f6),
            white background, circular design suitable for diagram,
            vector-style illustration, minimalist and professional".

Definition prompt_qualification : string :=
"Professional business icon for 'Qualification',
            filter or checkmark with criteria evaluation, sorting and selection concept,
            clean modern icon design, deep blue (#1e3a8a) and bright blue (#3b82f6),
            white background, circular design suitable for diagram,
            vector-style illustration, minimalist and professional".

Definition prompt_needs_assessment : string :=
"Professional business icon for 'Needs Assessment',
            question mark with analysis symbols, understanding and evaluation concept,
            clean modern icon design, deep blue (#1e3a8a) and bright blue (#3b82f6),
            white background, circular design suitable for diagram,
            vector-style illustration, minimalist and professional".

Definition prompt_proposal_contracting : string :=
"Professional business icon for 'Proposal & Contracting',
            document with pen or contract signing, paperwork and legal concept,
            clean modern icon design, deep blue (#1e3a8a) and bright blue (#3b82f6),
            white background, circular design suitable for diagram,
            vector-style illustration, minimalist and professional".

Definition prompt_solutioning : string :=
"Professional business icon for 'Solutioning',
            lightbulb with gear or puzzle pieces, problem solving and innovation concept,
            clean modern icon design, deep blue (#1e3a8a) and bright blue (#3b82f6),
            white background, circular design suitable for diagram,
            vector-style illustration, minimalist and professional".

Definition prompt_close_followup : string :=
"Professional business icon for 'Close & Follow-up',
            handshake with circular arrow or relationship symbol, partnership and ongoing relationship concept,
            clean modern icon design, deep blue (#1e3a8a) and bright blue (#3b82f6),
            white background, circular design suitable for diagram,
            vector-style illustration, minimalist and professional".

Definition dashboard_prompt : string :=
"Modern SaaS dashboard interface for MyBidFit B2B platform,
    'Personalized Opportunities' header at top,
    three opportunity cards showing:
    - First card: 'TechCorp Solutions' with 96% match score, green indicator
    - Second card: 'Global Industries' with 89% match score, blue indicator  
    - Third card: 'Metro Services' with 78% match score, yellow indicator,
    each card has 'View Details & Apply' button,
    clean white background, deep blue (#1e3a8a) headers, 
    bright blue (#3b82f6) accent buttons, professional UI design,
    modern typography, card-based layout, subtle shadows,
    desktop web application interface, high-quality mockup design".

Definition hero_prompt : string :=
"Professional business success concept for B2B presentation background, 
    arrow hitting bullseye target center, corporate office environment, 
    professional businesspeople in background slightly blurred, 
    deep blue and bright blue color scheme (#1e3a8a, #3b82f6), 
    success and achievement theme, clean modern composition, 
    photorealistic, high quality corporate photography, 
    suitable for investor presentation, inspiring and trustworthy aesthetic".

Definition investment_prompt : string :=
"Professional business investment visualization showing $500K funding concept,
    upward trending growth chart with ascending bars and arrow,
    network connections between business nodes, interconnected circles,
    money symbols and investment icons, dollar signs and growth indicators,
    deep blue (#1e3a8a) and bright blue (#3b82f6) primary colors,
    accent green (#10b981) for positive growth elements,
    clean modern infographic style, corporate presentation graphics,
    success and profitability theme, investor-focused design,
    professional financial visualization, high-quality business graphics".

(** ** generate_business_icons.py *)

(** One entry of the [icons] list. *)
Record Icon := { name : string; prompt : string }.

Definition prospecting : Icon :=
  {| name := "prospecting"; prompt := prompt_prospecting |}.

Definition qualification : Icon :=
  {| name := "qualification"; prompt := prompt_qualification |}.

Definition needs_assessment : Icon :=
  {| name := "needs_assessment"; prompt := prompt_needs_assessment |}.

Definition proposal_contracting : Icon :=
  {| name := "proposal_contracting"; prompt := prompt_proposal_contracting |}.

Definition solutioning : Icon :=
  {| name := "solutioning"; prompt := prompt_solutioning |}.

Definition close_followup : Icon :=
  {| name := "close_followup"; prompt := prompt_close_followup |}.

Definition icons : list Icon :=
  [ prospecting; qualification; needs_assessment; proposal_contracting;
    solutioning; close_followup ].

Definition icon_data (icon : Icon) : Payload :=
  {| text_prompts := [ {| text := prompt icon; weight := 1 |} ];
     cfg_scale := 7;
     height := 1024;
     width := 1024;
     samples := 1;
     steps := 50;
     style_preset := "digital-art" |}.

Definition icon_original_path (icon : Icon) : string :=
  "/mnt/c/Users/dnice/DJ Programs/mybidfit_mini/business/mybidfit-presentation/assets/icons/"
  ++ name icon ++ "_icon.png".

Definition icon_webp_path (icon : Icon) : string :=
  "/mnt/c/Users/dnice/DJ Programs/mybidfit_mini/business/mybidfit-presentation/assets/icons/"
  ++ name icon ++ "_icon.webp".

(** The body of [for icon in icons:], from the first [print] to the end of the
    [try] statement; [success_count] goes in and comes out. *)
Definition icon_iteration (w : World) (headers : list (string * string))
    (icon : Icon) (success_count : Z) : M Z :=
  print (MsgGenerating (name icon));;
  let data := icon_data icon in
  try_except
    (response ← requests_post w url headers data 120;
     lift (raise_for_status response);;
     result ← lift (response_json response);
     has_artifacts ← lift (py_in "artifacts" result);
     if has_artifacts then
       artifacts ← lift (getitem_key result "artifacts");
       first ← lift (getitem_idx artifacts 0);
       encoded ← lift (getitem_key first "base64");
       image_data ← lift (base64_b64decode w encoded);
       image ← lift (Image_open w image_data);
       let original_path := icon_original_path icon in
       Image_save w image original_path PNG 95;;
       let webp_path := icon_webp_path icon in
       Image_save w image webp_path WebP 85;;
       let success_count := success_count + 1 in
       print (MsgGenerated (name icon));;
       ret success_count
     else
       print (MsgNoImageData (name icon) None);;
       ret success_count)
    (λ e,
       if is_RequestException e then
         print (MsgRequestFailed (name icon) e);;
         ret success_count
       else
         print (MsgErrorGenerating (name icon) e);;
         ret success_count).

Definition generate_business_icons (w : World) : M bool :=
  api_key ← os_getenv w "STABILITY_API_KEY";
  if py_not api_key then
    print MsgKeyNotSet;;
    ret false
  else
    let headers := headers_of api_key in
    os_makedirs w icons_dir true;;
    success_count ← for_each icons (icon_iteration w headers) 0;
    print MsgSummaryHeader;;
    print (MsgSummaryCount success_count);;
    print MsgLocation;;
    print MsgIconDimensions;;
    print MsgBothVersions;;
    ret (success_count =? 6).

(** ** generate_dashboard_mockup.py *)

Definition dashboard_data : Payload :=
  {| text_prompts := [ {| text := dashboard_prompt; weight := 1 |} ];
     cfg_scale := 8;
     height := 896;
     width := 1152;
     samples := 1;
     steps := 50;
     style_preset := "digital-art" |}.

Definition dashboard_original_path : string :=
  "/mnt/c/Users/dnice/DJ Programs/mybidfit_mini/business/mybidfit-presentation/assets/dashboard_mockup.png".

Definition dashboard_webp_path : string :=
  "/mnt/c/Users/dnice/DJ Programs/mybidfit_mini/business/mybidfit-presentation/assets/dashboard_mockup.webp".

Definition generate_dashboard_mockup (w : World) : M bool :=
  api_key ← os_getenv w "STABILITY_API_KEY";
  if py_not api_key then
    print MsgKeyNotSet;;
    ret false
  else
    let headers := headers_of api_key in
    let data := dashboard_data in
    try_except
      (response ← requests_post w url headers data 120;
       lift (raise_for_status response);;
       result ← lift (response_json response);
       has_artifacts ← lift (py_in "artifacts" result);
       if has_artifacts then
         artifacts ← lift (getitem_key result "artifacts");
         first ← lift (getitem_idx artifacts 0);
         encoded ← lift (getitem_key first "base64");
         image_data ← lift (base64_b64decode w encoded);
         image ← lift (Image_open w image_data);
         os_makedirs w assets_dir true;;
         let original_path := dashboard_original_path in
         Image_save w image original_path PNG 95;;
         let webp_path := dashboard_webp_path in
         Image_save w image webp_path WebP 85;;
         print (MsgGenerated "Dashboard mockup");;
         print (MsgOriginal original_path);;
         print (MsgWebOptimized webp_path);;
         print (MsgDimensions (size image).1 (size image).2);;
         ret true
       else
         print (MsgNoImageData "" (Some result));;
         ret false)
      (λ e,
         if is_RequestException e then
           print (MsgRequestFailed "" e);;
           ret false
         else
           print (MsgErrorGenerating "dashboard mockup" e);;
           ret false).

(** ** generate_hero_image.py *)

Definition hero_data : Payload :=
  {| text_prompts := [ {| text := hero_prompt; weight := 1 |} ];
     cfg_scale := 7;
     height := 768;
     width := 1344;
     samples := 1;
     steps := 50;
     style_preset := "photographic" |}.

Definition hero_original_path : string :=
  "/mnt/c/Users/dnice/DJ Programs/mybidfit_mini/business/mybidfit-presentation/assets/hero_background.png".

Definition hero_webp_path : string :=
  "/mnt/c/Users/dnice/DJ Programs/mybidfit_mini/business/mybidfit-presentation/assets/hero_background.webp".

Definition generate_hero_image (w : World) : M bool :=
  api_key ← os_getenv w "STABILITY_API_KEY";
  if py_not api_key then
    print MsgKeyNotSet;;
    ret false
  else
    let headers := headers_of api_key in
    let data := hero_data in
    try_except
      (response ← requests_post w url headers data 120;
       lift (raise_for_status response);;
       result ← lift (response_json response);
       has_artifacts ← lift (py_in "artifacts" result);
       if has_artifacts then
         artifacts ← lift (getitem_key result "artifacts");
         first ← lift (getitem_idx artifacts 0);
         encoded ← lift (getitem_key first "base64");
         image_data ← lift (base64_b64decode w encoded);
         image ← lift (Image_open w image_data);
         os_makedirs w assets_dir true;;
         let original_path := hero_original_path in
         Image_save w image original_path PNG 95;;
         let webp_path := hero_webp_path in
         Image_save w image webp_path WebP 85;;
         print (MsgGenerated "Hero image");;
         print (MsgOriginal original_path);;
         print (MsgWebOptimized webp_path);;
         print (MsgDimensions (size image).1 (size image).2);;
         ret true
       else
         print (MsgNoImageData "" (Some result));;
         ret false)
      (λ e,
         if is_RequestException e then
           print (MsgRequestFailed "" e);;
           ret false
         else
           print (MsgErrorGenerating "image" e);;
           ret false).

(** ** generate_investment_visual.py *)

Definition investment_data : Payload :=
  {| text_prompts := [ {| text := investment_prompt; weight := 1 |} ];
     cfg_scale := 7;
     height := 768;
     width := 1344;
     samples := 1;
     steps := 50;
     style_preset := "digital-art" |}.

Definition investment_original_path : string :=
  "/mnt/c/Users/dnice/DJ Programs/mybidfit_mini/business/mybidfit-presentation/assets/investment_visual.png".

Definition investment_webp_path : string :=
  "/mnt/c/Users/dnice/DJ Programs/mybidfit_mini/business/mybidfit-presentation/assets/investment_visual.webp".

Definition generate_investment_visual (w : World) : M bool :=
  api_key ← os_getenv w "STABILITY_API_KEY";
  if py_not api_key then
    print MsgKeyNotSet;;
    ret false
  else
    let headers := headers_of api_key in
    let data := investment_data in
    try_except
      (response ← requests_post w url headers data 120;
       lift (raise_for_status response);;
       result ← lift (response_json response);
       has_artifacts ← lift (py_in "artifacts" result);
       if has_artifacts then
         artifacts ← lift (getitem_key result "artifacts");
         first ← lift (getitem_idx artifacts 0);
         encoded ← lift (getitem_key first "base64");
         image_data ← lift (base64_b64decode w encoded);
         image ← lift (Image_open w image_data);
         os_makedirs w assets_dir true;;
         let original_path := investment_original_path in
         Image_save w image original_path PNG 95;;
         let webp_path := investment_webp_path in
         Image_save w image webp_path WebP 85;;
         print (MsgGenerated "Investment visual");;
         print (MsgOriginal original_path);;
         print (MsgWebOptimized webp_path);;
         print (MsgDimensions (size image).1 (size image).2);;
         ret true
       else
         print (MsgNoImageData "" (Some result));;
         ret false)
      (λ e,
         if is_RequestException e then
           print (MsgRequestFailed "" e);;
           ret false
         else
           print (MsgErrorGenerating "investment visual" e);;
           ret false).

(** ** The four runners side by side *)

(** The three scripts that ask for one image. *)
Inductive Single :=
| DashboardMockup
| HeroImage
| InvestmentVisual.

Inductive Runner :=
| BusinessIcons
| SingleImage (s : Single).

Definition run_single (s : Single) : World → M bool :=
  match s with
  | DashboardMockup => generate_dashboard_mockup
  | HeroImage => generate_hero_image
  | InvestmentVisual => generate_investment_visual
  end.

Definition run (r : Runner) : World → M bool :=
  match r with
  | BusinessIcons => generate_business_icons
  | SingleImage s => run_single s
  end.

Definition data_of (s : Single) : Payload :=
  match s with
  | DashboardMockup => dashboard_data
  | HeroImage => hero_data
  | InvestmentVisual => investment_data
  end.

Definition original_path_of (s : Single) : string :=
  match s with
  | DashboardMockup => dashboard_original_path
  | HeroImage => hero_original_path
  | InvestmentVisual => investment_original_path
  end.

Definition webp_path_of (s : Single) : string :=
  match s with
  | DashboardMockup => dashboard_webp_path
  | HeroImage => hero_webp_path
  | InvestmentVisual => investment_webp_path
  end.

(** The credential as the scripts read it. *)
Definition api_key_of (w : World) : option string :=
  environ w !! "STABILITY_API_KEY".

(** The request a script sends for one payload. *)
Definition request_of (w : World) (data : Payload) : Request :=
  {| req_url := url;
     req_headers := headers_of (api_key_of w);
     req_json := data;
     req_timeout := 120 |}.

(** ** What a script makes of the answer to its POST

    The steps of the [try] block between the POST and the first write have no
    effect on the state; [fetch] composes them, and the theorems below show
    that every script behaves as [fetch] says. *)

Inductive Fetched :=
| FetchRaised (e : exn)
| FetchNoArtifacts (result : json)
| FetchImage (image : Image).

Definition and_then {A B} (r : exn + A) (k : A → exn + B) : exn + B :=
  match r with
  | inl e => inl e
  | inr a => k a
  end.

(** [Image.open(io.BytesIO(base64.b64decode(result["artifacts"][0]["base64"])))] *)
Definition decode_first_artifact (w : World) (result : json) : exn + Image :=
  and_then (getitem_key result "artifacts") (λ artifacts,
  and_then (getitem_idx artifacts 0) (λ first,
  and_then (getitem_key first "base64") (λ encoded,
  and_then (base64_b64decode w encoded) (λ image_data,
  Image_open w image_data)))).

Definition fetch_response (w : World) (response : Response) : Fetched :=
  match raise_for_status response with
  | inl e => FetchRaised e
  | inr _ =>
      match response_json response with
      | inl e => FetchRaised e
      | inr result =>
          match py_in "artifacts" result with
          | inl e => FetchRaised e
          | inr false => FetchNoArtifacts result
          | inr true =>
              match decode_first_artifact w result with
              | inl e => FetchRaised e
              | inr image => FetchImage image
              end
          end
      end
  end.

Definition fetch (w : World) (p : PostResult) : Fetched :=
  match p with
  | PostRaises e => FetchRaised e
  | PostReturns response => fetch_response w response
  end.

(** The line the two [except] clauses print. *)
Definition failure_msg (what_request what_error : string) (e : exn) : Msg :=
  if is_RequestException e then MsgRequestFailed what_request e
  else MsgErrorGenerating what_error e.

Definition error_label (s : Single) : string :=
  match s with
  | DashboardMockup => "dashboard mockup"
  | HeroImage => "image"
  | InvestmentVisual => "investment visual"
  end.

Definition success_label (s : Single) : string :=
  match s with
  | DashboardMockup => "Dashboard mockup"
  | HeroImage => "Hero image"
  | InvestmentVisual => "Investment visual"
  end.

(** The two [except] clauses of a single-image script. *)
Definition except_single (s : Single) (e : exn) : M bool :=
  if is_RequestException e then
    print (MsgRequestFailed "" e);;
    ret false
  else
    print (MsgErrorGenerating (error_label s) e);;
    ret false.

(** The two [except] clauses inside the loop of the icons script. *)
Definition except_icon (icon : Icon) (success_count : Z) (e : exn) : M Z :=
  if is_RequestException e then
    print (MsgRequestFailed (name icon) e);;
    ret success_count
  else
    print (MsgErrorGenerating (name icon) e);;
    ret success_count.

(** The lines 69 to 84 of the three single-image scripts, with the handlers of
    the enclosing [try]: what happens once the image is decoded. *)
Definition store_single (s : Single) (w : World) (image : Image) : M bool :=
  try_except
    (os_makedirs w assets_dir true;;
     Image_save w image (original_path_of s) PNG 95;;
     Image_save w image (webp_path_of s) WebP 85;;
     print (MsgGenerated (success_label s));;
     print (MsgOriginal (original_path_of s));;
     print (MsgWebOptimized (webp_path_of s));;
     print (MsgDimensions (size image).1 (size image).2);;
     ret true)
    (except_single s).

(** The same for one icon: the two saves and the count. *)
Definition store_icon (w : World) (icon : Icon) (image : Image)
    (success_count : Z) : M Z :=
  try_except
    (Image_save w image (icon_original_path icon) PNG 95;;
     Image_save w image (icon_webp_path icon) WebP 85;;
     print (MsgGenerated (name icon));;
     ret (success_count + 1))
    (except_icon icon success_count).

Definition icon_request (w : World) (icon : Icon) : Request :=
  request_of w (icon_data icon).

(** ** Vocabulary of the statements *)

(** [os.makedirs(d, exist_ok=True)] goes through: the directory is there
    already, or the world lets it be created. *)
Definition dir_ready (w : World) (st : State) (d : string) : Prop :=
  d ∈ dirs (fs st) ∨ mkdir_fault w d = None.

(** The file system after [os.makedirs(d, exist_ok=True)] went through. *)
Definition fs_with_dir (d : string) (f : FS) : FS :=
  if bool_decide (d ∈ dirs f) then f
  else {| dirs := dirs f ∪ {[d]} ∪ list_to_set (ancestors d);
          files := files f |}.

(** The file system after the two saves of one image went through. *)
Definition fs_with_image (original_path webp_path : string) (image : Image)
    (f : FS) : FS :=
  {| dirs := dirs f;
     files := <[webp_path := Stored WebP 85 image]>
                (<[original_path := Stored PNG 95 image]> (files f)) |}.

(** The calls and lines of a single-image script after a good answer. *)
Definition single_success_events (s : Single) (image : Image) : list Event :=
  [ EvMakedirs assets_dir true;
    EvSave (original_path_of s) PNG 95;
    EvSave (webp_path_of s) WebP 85;
    EvPrint (MsgGenerated (success_label s));
    EvPrint (MsgOriginal (original_path_of s));
    EvPrint (MsgWebOptimized (webp_path_of s));
    EvPrint (MsgDimensions (size image).1 (size image).2) ].

(** The calls and lines of one turn of the icons loop after a good answer. *)
Definition icon_success_events (w : World) (icon : Icon) : list Event :=
  [ EvPrint (MsgGenerating (name icon));
    EvPost (icon_request w icon);
    EvSave (icon_original_path icon) PNG 95;
    EvSave (icon_webp_path icon) WebP 85;
    EvPrint (MsgGenerated (name icon)) ].

(** The five lines the icons script prints after its loop. *)
Definition summary_events (success_count : Z) : list Event :=
  [ EvPrint MsgSummaryHeader;
    EvPrint (MsgSummaryCount success_count);
    EvPrint MsgLocation;
    EvPrint MsgIconDimensions;
    EvPrint MsgBothVersions ].

(** The requests of one invocation, in the order they are sent. *)
Definition requests_of (w : World) (r : Runner) : list Request :=
  match r with
  | BusinessIcons => map (icon_request w) icons
  | SingleImage s => [request_of w (data_of s)]
  end.

(** The [image.save] calls in a trace. *)
Definition saves (tr : list Event) : list (string * Format * Z) :=
  omap (λ ev, match ev with
              | EvSave p fmt q => Some (p, fmt, q)
              | _ => None
              end) tr.

(** The POST itself fails: the transport raises, or the status is an error
    status. *)
Definition request_fails (p : PostResult) : Prop :=
  match p with
  | PostRaises _ => True
  | PostReturns response => is_error_status (status_code response) = true
  end.

(** The decoded body is a JSON object with the given field. *)
Definition has_field (key : string) (v : json) : Prop :=
  ∃ m x, v = JObj m ∧ m !! key = Some x.

(** A good answer: a status that passes [raise_for_status] and a JSON object
    whose ["artifacts"] array starts with an object whose ["base64"] string
    decodes to [image]. *)
Definition image_answer (w : World) (p : PostResult) (image : Image) : Prop :=
  ∃ status m first rest encoded data,
    p = PostReturns {| status_code := status; body := Some (JObj m) |} ∧
    is_error_status status = false ∧
    m !! "artifacts" = Some (JArr (JObj first :: rest)) ∧
    first !! "base64" = Some (JStr encoded) ∧
    b64decode w encoded = inr data ∧
    pil_open w data = inr image.

(** The line one turn of the icons loop prints when the answer gives no
    image. *)
Definition no_image_msg (icon : Icon) (f : Fetched) : Msg :=
  match f with
  | FetchRaised e => failure_msg (name icon) (name icon) e
  | _ => MsgNoImageData (name icon) None
  end.

(** One turn of the icons loop, as a step from a state and a count to the
    next: the answer gives no image, a save fails, or both files are
    stored. *)
Inductive icon_step (w : World) (icon : Icon) (st : State) (c : Z)
    : Z → State → Prop :=
| step_no_image :
    (∀ image, fetch w (http w (length (posts (trace st)))
                         (icon_request w icon)) ≠ FetchImage image) →
    icon_step w icon st c c
      {| fs := fs st;
         trace := trace st ++
           [ EvPrint (MsgGenerating (name icon));
             EvPost (icon_request w icon);
             EvPrint (no_image_msg icon
                        (fetch w (http w (length (posts (trace st)))
                                         (icon_request w icon)))) ] |}
| step_save_failed (image : Image) (f : FS) (evs : list Event) :
    fetch w (http w (length (posts (trace st))) (icon_request w icon))
      = FetchImage image →
    (save_fault w (icon_original_path icon) PNG image ≠ None ∨
     save_fault w (icon_webp_path icon) WebP image ≠ None) →
    dirs f = dirs (fs st) →
    (∀ p, p ≠ icon_original_path icon → p ≠ icon_webp_path icon →
          files f !! p = files (fs st) !! p) →
    posts evs = [] →
    (length (saves evs) ≤ 2)%nat →
    icon_step w icon st c c
      {| fs := f;
         trace := trace st ++ EvPrint (MsgGenerating (name icon))
                              :: EvPost (icon_request w icon) :: evs |}
| step_stored (image : Image) :
    fetch w (http w (length (posts (trace st))) (icon_request w icon))
      = FetchImage image →
    save_fault w (icon_original_path icon) PNG image = None →
    save_fault w (icon_webp_path icon) WebP image = None →
    icon_step w icon st c (c + 1)
      {| fs := fs_with_image (icon_original_path icon) (icon_webp_path icon)
                 image (fs st);
         trace := trace st ++ icon_success_events w icon |}.

(** The loop: the steps of the icons of a list, one after the other. *)
Inductive icons_steps (w : World)
    : list Icon → State → Z → Z → State → Prop :=
| steps_nil (st : State) (c : Z) :
    icons_steps w [] st c c st
| steps_cons (icon : Icon) (l : list Icon) (st st1 st' : State) (c c1 c' : Z) :
    icon_step w icon st c c1 st1 →
    icons_steps w l st1 c1 c' st' →
    icons_steps w (icon :: l) st c c' st'.

(** The two paths of an icon. *)
Definition icon_paths (icon : Icon) : list string :=
  [icon_original_path icon; icon_webp_path icon].

(** The [for] loop of the icons script, with the headers of the script. *)
Definition icons_loop (w : World) (l : list Icon) (c : Z) : M Z :=
  for_each l (icon_iteration w (headers_of (api_key_of w))) c.

(** ** Sample worlds

    A mocked service: the artifact is the base64 of the four bytes that open a
    PNG file, and every non-empty byte string opens as a 1024 x 1024 image. *)

Definition sample_image : Image := {| size := (1024, 1024); pixels := [] |}.

Definition sample_b64decode (s : string) : exn + list Byte.byte :=
  if bool_decide (s = "iVBORw==")
  then inr [Byte.x89; Byte.x50; Byte.x4e; Byte.x47]
  else inl BinasciiError.

Definition sample_pil_open (data : list Byte.byte) : exn + Image :=
  match data with
  | [] => inl UnidentifiedImageError
  | _ => inr sample_image
  end.

Definition sample_artifact : gmap string json :=
  {[ "base64" := JStr "iVBORw==" ]}.

(** A 200 answer whose ["artifacts"] array is the given one. *)
Definition answer_with (artifacts : list json) : PostResult :=
  PostReturns {| status_code := 200;
                 body := Some (JObj {[ "artifacts" := JArr artifacts ]}) |}.

Definition good_answer : PostResult := answer_with [JObj sample_artifact].

(** A 200 answer without the ["artifacts"] field. *)
Definition message_answer : PostResult :=
  PostReturns {| status_code := 200;
                 body := Some (JObj {[ "message" := JStr "no image" ]}) |}.

(** A 500 answer. *)
Definition server_error_answer : PostResult :=
  PostReturns {| status_code := 500; body := None |}.

(** The world with the credential set, the given answers, and a file system
    that refuses nothing. *)
Definition sample_world (answers : nat → PostResult) : World :=
  {| environ := {[ "STABILITY_API_KEY" := "sk-sample" ]};
     http := λ n _, answers n;
     b64decode := sample_b64decode;
     pil_open := sample_pil_open;
     mkdir_fault := λ _, None;
     save_fault := λ _ _ _, None |}.

Definition good_world : World := sample_world (λ _, good_answer).

(** The same without the credential. *)
Definition unset_world : World :=
  {| environ := ∅;
     http := λ _ _, good_answer;
     b64decode := sample_b64decode;
     pil_open := sample_pil_open;
     mkdir_fault := λ _, None;
     save_fault := λ _ _ _, None |}.

(** The same with a file system that lets no directory be created. *)
Definition readonly_world : World :=
  {| environ := {[ "STABILITY_API_KEY" := "sk-sample" ]};
     http := λ _ _, good_answer;
     b64decode := sample_b64decode;
     pil_open := sample_pil_open;
     mkdir_fault := λ _, Some PermissionError;
     save_fault := λ _ _ _, None |}.

(** The second answer of the process is a 500, the others are good. *)
Definition second_fails_world : World :=
  sample_world (λ n, if (n =? 1)%nat then server_error_answer else good_answer).

(** The first answer of the process has no ["artifacts"], the others are
    good. *)
Definition first_empty_world : World :=
  sample_world (λ n, if (n =? 0)%nat then message_answer else good_answer).

(** Every answer has an empty ["artifacts"] array. *)
Definition no_artifact_world : World := sample_world (λ _, answer_with []).

(** Every answer is a 500. *)
Definition down_world : World := sample_world (λ _, server_error_answer).

(** A fresh process on an empty file system. *)
Definition empty_state : State :=
  {| fs := {| dirs := ∅; files := ∅ |}; trace := [] |}.

(** The two [image.save] calls for one image. *)
Definition writes_at (original_path webp_path : string)
    : list (string * Format * Z) :=
  [ (original_path, PNG, 95); (webp_path, WebP, 85) ].

(** The pairs of paths a runner writes to. *)
Definition outputs_of (r : Runner) : list (string * string) :=
  match r with
  | BusinessIcons =>
      map (λ icon, (icon_original_path icon, icon_webp_path icon)) icons
  | SingleImage s => [ (original_path_of s, webp_path_of s) ]
  end.

(** The [image.save] calls of a run in which everything went through. *)
Definition writes_of (r : Runner) : list (string * Format * Z) :=
  flat_map (λ o, writes_at o.1 o.2) (outputs_of r).

(** The same answer with the rest of its ["artifacts"] array rewritten: what
    comes after the first artifact is replaced by [f] of it. *)
Definition retail_json (f : list json → list json) (v : json) : json :=
  match v with
  | JObj m =>
      match m !! "artifacts" with
      | Some (JArr (first :: rest)) =>
          JObj (<["artifacts" := JArr (first :: f rest)]> m)
      | _ => v
      end
  | _ => v
  end.

Definition retail_answer (f : list json → list json) (p : PostResult)
    : PostResult :=
  match p with
  | PostRaises e => PostRaises e
  | PostReturns response =>
      PostReturns {| status_code := status_code response;
                     body := retail_json f <$> body response |}
  end.

(** The same world with every answer rewritten in that way. *)
Definition retail_world (f : list json → list json) (w : World) : World :=
  {| environ := environ w;
     http := λ n req, retail_answer f (http w n req);
     b64decode := b64decode w;
     pil_open := pil_open w;
     mkdir_fault := mkdir_fault w;
     save_fault := save_fault w |}.

(** ** The outputs of the scripts, and more sample worlds *)

(** The directory a script creates. *)
Definition output_dir (r : Runner) : string :=
  match r with
  | BusinessIcons => icons_dir
  | SingleImage _ => assets_dir
  end.

(** The paths a script saves to. *)
Definition output_paths (r : Runner) : list string :=
  flat_map (λ o, [o.1; o.2]) (outputs_of r).

Definition all_runners : list Runner :=
  [ BusinessIcons;
    SingleImage DashboardMockup;
    SingleImage HeroImage;
    SingleImage InvestmentVisual ].

(** The credential is exported, but empty. *)
Definition empty_key_world : World :=
  {| environ := {[ "STABILITY_API_KEY" := "" ]};
     http := λ _ _, good_answer;
     b64decode := sample_b64decode;
     pil_open := sample_pil_open;
     mkdir_fault := λ _, None;
     save_fault := λ _ _ _, None |}.

(** Every POST times out. *)
Definition timeout_world : World := sample_world (λ _, PostRaises Timeout).

(** Every answer carries an artifact that is no base64. *)
Definition garbled_world : World :=
  sample_world (λ _, answer_with [JObj {[ "base64" := JStr "@@@" ]}]).

(** Only the third answer of the process is good, the others are 500s. *)
Definition third_only_world : World :=
  sample_world (λ n, if (n =? 2)%nat then good_answer else server_error_answer).

(** Good answers, and a file system that refuses every save in one format,
    leaving no file behind. *)
Definition refusing_world (refused : Format) : World :=
  {| environ := {[ "STABILITY_API_KEY" := "sk-sample" ]};
     http := λ _ _, good_answer;
     b64decode := sample_b64decode;
     pil_open := sample_pil_open;
     mkdir_fault := λ _, None;
     save_fault := λ _ fmt _,
       match refused, fmt with
       | PNG, PNG | WebP, WebP => Some (OSError, false)
       | _, _ => None
       end |}.

Open Scope list_scope.

(** * Properties *)

(** ** The model at work *)

Example ancestors_nested : ancestors "/a/b/c" = ["/a"; "/a/b"].
Proof. reflexivity. Qed.

Example error_statuses :
  is_error_status 200 = false ∧ is_error_status 302 = false ∧
  is_error_status 404 = true ∧ is_error_status 503 = true ∧
  is_error_status 600 = false.
Proof. repeat split. Qed.

Example artifacts_in_str : py_in "artifacts" (JStr "no artifacts today") = inr true.
Proof. reflexivity. Qed.

Example artifacts_in_number : py_in "artifacts" (JInt 7) = inl TypeError.
Proof. reflexivity. Qed.

Example first_of_empty : getitem_idx (JArr []) 0 = inl IndexError.
Proof. reflexivity. Qed.

Example dashboard_good_run :
  (generate_dashboard_mockup good_world empty_state).1 = inr true ∧
  saves (trace (generate_dashboard_mockup good_world empty_state).2)
  = [ (dashboard_original_path, PNG, 95); (dashboard_webp_path, WebP, 85) ] ∧
  files (fs (generate_dashboard_mockup good_world empty_state).2)
    !! dashboard_webp_path = Some (Stored WebP 85 sample_image).
Proof. repeat split; vm_compute; reflexivity. Qed.

Example icons_good_run :
  (generate_business_icons good_world empty_state).1 = inr true ∧
  length (posts (trace (generate_business_icons good_world empty_state).2))
  = 6%nat ∧
  length (map_to_list (files (fs (generate_business_icons good_world empty_state).2)))
  = 12%nat.
Proof. repeat split; vm_compute; reflexivity. Qed.

(** ** Lists *)

Lemma lookup_map {A B} (f : A → B) (l : list A) (i : nat) :
  map f l !! i = f <$> l !! i.
Proof. revert i. induction l as [|x l IH]; intros [|i]; simpl; auto. Qed.

(** ** The trace *)

Lemma posts_app (tr1 tr2 : list Event) :
  posts (tr1 ++ tr2) = posts tr1 ++ posts tr2.
Proof. apply omap_app. Qed.

Lemma saves_app (tr1 tr2 : list Event) :
  saves (tr1 ++ tr2) = saves tr1 ++ saves tr2.
Proof. apply omap_app. Qed.

Lemma posts_log_print (m : Msg) (st : State) :
  posts (trace (log (EvPrint m) st)) = posts (trace st).
Proof. unfold log; simpl. rewrite posts_app; simpl. apply app_nil_r. Qed.

(** ** The handlers *)

Lemma except_single_run (s : Single) (e : exn) (st : State) :
  except_single s e st
  = (inr false, log (EvPrint (failure_msg "" (error_label s) e)) st).
Proof. unfold except_single, failure_msg. by destruct (is_RequestException e). Qed.

Lemma except_icon_run (icon : Icon) (c : Z) (e : exn) (st : State) :
  except_icon icon c e st
  = (inr c, log (EvPrint (failure_msg (name icon) (name icon) e)) st).
Proof. unfold except_icon, failure_msg. by destruct (is_RequestException e). Qed.

(** ** Every script behaves as [fetch] says *)

Ltac fetch_cases w :=
  destruct (http w _ _) as [e|response]; [reflexivity|];
  destruct (raise_for_status response) as [e|[]]; [reflexivity|];
  destruct (response_json response) as [e|result]; [reflexivity|];
  destruct (py_in "artifacts" result) as [e|[]]; [reflexivity| |reflexivity];
  destruct (getitem_key result "artifacts") as [e|artifacts]; [reflexivity|];
  destruct (getitem_idx artifacts 0) as [e|first]; [reflexivity|];
  destruct (getitem_key first "base64") as [e|encoded]; [reflexivity|];
  destruct (base64_b64decode w encoded) as [e|image_data]; [reflexivity|];
  destruct (Image_open w image_data) as [e|image]; reflexivity.

Lemma run_single_spec (s : Single) (w : World) (st : State) :
  py_not (api_key_of w) = false →
  run_single s w st =
    let req := request_of w (data_of s) in
    let st1 := log (EvPost req) st in
    match fetch w (http w (length (posts (trace st))) req) with
    | FetchRaised e => except_single s e st1
    | FetchNoArtifacts result =>
        (inr false, log (EvPrint (MsgNoImageData "" (Some result))) st1)
    | FetchImage image => store_single s w image st1
    end.
Proof.
  intros Hkey. unfold api_key_of in Hkey.
  destruct s;
    cbv [run_single generate_dashboard_mockup generate_hero_image
         generate_investment_visual bind os_getenv ret try_except lift
         requests_post request_of api_key_of data_of fetch fetch_response
         decode_first_artifact and_then store_single error_label
         success_label original_path_of webp_path_of];
    rewrite Hkey; cbv zeta; fetch_cases w.
Qed.

Lemma icon_iteration_spec (w : World) (icon : Icon) (c : Z) (st : State) :
  icon_iteration w (headers_of (api_key_of w)) icon c st =
    let st0 := log (EvPrint (MsgGenerating (name icon))) st in
    let st1 := log (EvPost (icon_request w icon)) st0 in
    match fetch w (http w (length (posts (trace st))) (icon_request w icon)) with
    | FetchRaised e => except_icon icon c e st1
    | FetchNoArtifacts result =>
        (inr c, log (EvPrint (MsgNoImageData (name icon) None)) st1)
    | FetchImage image => store_icon w icon image c st1
    end.
Proof.
  cbv [icon_iteration bind ret try_except lift requests_post request_of
       icon_request fetch fetch_response decode_first_artifact and_then
       store_icon print].
  rewrite posts_log_print. cbv zeta. fetch_cases w.
Qed.

Lemma generate_business_icons_spec (w : World) (st : State) :
  py_not (api_key_of w) = false →
  generate_business_icons w st =
    match os_makedirs w icons_dir true st with
    | (inl e, st1) => (inl e, st1)
    | (inr _, st1) =>
        match for_each icons (icon_iteration w (headers_of (api_key_of w))) 0 st1 with
        | (inl e, st2) => (inl e, st2)
        | (inr c, st2) =>
            (inr (c =? 6), {| fs := fs st2; trace := trace st2 ++ summary_events c |})
        end
    end.
Proof.
  intros Hkey. unfold api_key_of in *.
  unfold generate_business_icons, bind, os_getenv, ret. rewrite Hkey.
  destruct (os_makedirs w icons_dir true st) as [[e|[]] st1]; [reflexivity|].
  destruct (for_each _ _ _ _) as [[e|c] st2]; [reflexivity|].
  unfold print, log, summary_events; simpl. by rewrite <- !app_assoc.
Qed.

Lemma run_no_key (r : Runner) (w : World) (st : State) :
  py_not (api_key_of w) = true →
  run r w st = (inr false, {| fs := fs st; trace := trace st ++ [EvPrint MsgKeyNotSet] |}).
Proof.
  unfold api_key_of. intros Hkey.
  destruct r as [|[]];
    cbv [run run_single generate_business_icons generate_dashboard_mockup
         generate_hero_image generate_investment_visual bind os_getenv ret];
    rewrite Hkey; reflexivity.
Qed.

Lemma run_unset (r : Runner) (w : World) (st : State) :
  api_key_of w = None →
  run r w st = (inr false, {| fs := fs st; trace := trace st ++ [EvPrint MsgKeyNotSet] |}).
Proof. intros Hkey. apply run_no_key. by rewrite Hkey. Qed.

(** ** The calls that change the file system *)

Lemma os_makedirs_ready (w : World) (d : string) (st : State) :
  dir_ready w st d →
  os_makedirs w d true st =
    (inr tt, {| fs := fs_with_dir d (fs st);
                trace := trace st ++ [EvMakedirs d true] |}).
Proof.
  intros Hr. unfold os_makedirs, fs_with_dir. case_bool_decide as Hd.
  - reflexivity.
  - destruct Hr as [?|Hr]; [done|]. by rewrite Hr.
Qed.

Lemma os_makedirs_refused (w : World) (d : string) (st : State) (e : exn) :
  d ∉ dirs (fs st) → mkdir_fault w d = Some e →
  os_makedirs w d true st = (inl e, log (EvMakedirs d true) st).
Proof.
  intros Hd He. unfold os_makedirs.
  rewrite bool_decide_eq_false_2 by done. by rewrite He.
Qed.

Lemma dir_ready_dec (w : World) (st : State) (d : string) :
  dir_ready w st d ∨ ((d ∉ dirs (fs st)) ∧ (∃ e, mkdir_fault w d = Some e)).
Proof.
  unfold dir_ready. destruct (decide (d ∈ dirs (fs st))); [by left; left|].
  destruct (mkdir_fault w d) eqn:E; [right; eauto | left; by right].
Qed.

Lemma os_makedirs_ok_inv (w : World) (d : string) (st st' : State) :
  os_makedirs w d true st = (inr tt, st') → dir_ready w st d.
Proof.
  unfold os_makedirs, dir_ready. case_bool_decide; [by left|].
  destruct (mkdir_fault w d); [discriminate|by right].
Qed.

Lemma elem_of_fs_with_dir (d : string) (f : FS) : d ∈ dirs (fs_with_dir d f).
Proof. unfold fs_with_dir. case_bool_decide; simpl; set_solver. Qed.

Lemma fs_with_dir_id (d : string) (f : FS) : d ∈ dirs f → fs_with_dir d f = f.
Proof. intros Hd. unfold fs_with_dir. by rewrite bool_decide_eq_true_2. Qed.

Lemma files_fs_with_dir (d : string) (f : FS) : files (fs_with_dir d f) = files f.
Proof. unfold fs_with_dir. by case_bool_decide. Qed.

Lemma Image_save_ok_inv (w : World) (image : Image) (p : string) (fmt : Format)
    (q : Z) (st st' : State) :
  Image_save w image p fmt q st = (inr tt, st') → save_fault w p fmt image = None.
Proof.
  unfold Image_save. destruct (save_fault w p fmt image) as [[e b]|]; [discriminate|done].
Qed.

(** What a save leaves, whatever its outcome: the directories, the other paths,
    and one more call in the trace. *)
Lemma Image_save_frame (w : World) (image : Image) (p : string) (fmt : Format)
    (q : Z) (st : State) :
  let st' := (Image_save w image p fmt q st).2 in
  dirs (fs st') = dirs (fs st) ∧
  (∀ p', p' ≠ p → files (fs st') !! p' = files (fs st) !! p') ∧
  trace st' = trace st ++ [EvSave p fmt q].
Proof.
  unfold Image_save.
  destruct (save_fault w p fmt image) as [[e []]|]; simpl;
    (split; [done|split; [|done]]); intros p' Hp; by rewrite ?lookup_insert_ne.
Qed.

(** ** Storing the image of a single-image script *)

Lemma store_single_ok (s : Single) (w : World) (image : Image) (st : State) :
  dir_ready w st assets_dir →
  save_fault w (original_path_of s) PNG image = None →
  save_fault w (webp_path_of s) WebP image = None →
  store_single s w image st =
    (inr true,
     {| fs := fs_with_image (original_path_of s) (webp_path_of s) image
                (fs_with_dir assets_dir (fs st));
        trace := trace st ++ single_success_events s image |}).
Proof.
  intros Hd H1 H2. unfold store_single, try_except, bind.
  rewrite os_makedirs_ready by done.
  unfold Image_save, print, ret, log, set_fs; simpl. rewrite H1, H2. simpl.
  unfold fs_with_image, single_success_events. simpl.
  repeat rewrite <- app_assoc. reflexivity.
Qed.

Lemma store_single_total (s : Single) (w : World) (image : Image) (st : State) :
  ∃ b st', store_single s w image st = (inr b, st').
Proof.
  unfold store_single, try_except, bind.
  destruct (os_makedirs w assets_dir true st) as [[e|[]] st1];
    [rewrite except_single_run; eauto|].
  destruct (Image_save w image (original_path_of s) PNG 95 st1) as [[e|[]] st2];
    [rewrite except_single_run; eauto|].
  destruct (Image_save w image (webp_path_of s) WebP 85 st2) as [[e|[]] st3];
    [rewrite except_single_run; eauto|].
  simpl. eauto.
Qed.

Lemma store_single_true_inv (s : Single) (w : World) (image : Image)
    (st st' : State) :
  store_single s w image st = (inr true, st') →
  dir_ready w st assets_dir ∧
  save_fault w (original_path_of s) PNG image = None ∧
  save_fault w (webp_path_of s) WebP image = None.
Proof.
  unfold store_single, try_except, bind.
  destruct (os_makedirs w assets_dir true st) as [[e|[]] st1] eqn:E0;
    [rewrite except_single_run; discriminate|].
  destruct (Image_save w image (original_path_of s) PNG 95 st1) as [[e|[]] st2] eqn:E1;
    [rewrite except_single_run; discriminate|].
  destruct (Image_save w image (webp_path_of s) WebP 85 st2) as [[e|[]] st3] eqn:E2;
    [rewrite except_single_run; discriminate|].
  intros _. split; [by eapply os_makedirs_ok_inv|split; by eapply Image_save_ok_inv].
Qed.

(** ** One turn of the icons loop *)

Lemma store_icon_ok (w : World) (icon : Icon) (image : Image) (c : Z) (st : State) :
  save_fault w (icon_original_path icon) PNG image = None →
  save_fault w (icon_webp_path icon) WebP image = None →
  store_icon w icon image c st =
    (inr (c + 1),
     {| fs := fs_with_image (icon_original_path icon) (icon_webp_path icon)
                image (fs st);
        trace := trace st ++ [ EvSave (icon_original_path icon) PNG 95;
                               EvSave (icon_webp_path icon) WebP 85;
                               EvPrint (MsgGenerated (name icon)) ] |}).
Proof.
  intros H1 H2.
  unfold store_icon, try_except, bind, Image_save, print, ret, log, set_fs; simpl.
  rewrite H1; simpl. rewrite H2; simpl.
  unfold fs_with_image. repeat rewrite <- app_assoc. reflexivity.
Qed.

Lemma store_icon_failed (w : World) (icon : Icon) (image : Image) (c : Z)
    (st : State) :
  save_fault w (icon_original_path icon) PNG image ≠ None ∨
  save_fault w (icon_webp_path icon) WebP image ≠ None →
  ∃ f evs,
    store_icon w icon image c st = (inr c, {| fs := f; trace := trace st ++ evs |}) ∧
    dirs f = dirs (fs st) ∧
    (∀ p, p ≠ icon_original_path icon → p ≠ icon_webp_path icon →
          files f !! p = files (fs st) !! p) ∧
    posts evs = [] ∧
    (length (saves evs) ≤ 2)%nat.
Proof.
  intros Hfault.
  unfold store_icon, try_except, bind, Image_save, print, ret.
  destruct (save_fault w (icon_original_path icon) PNG image) as [[e1 b1]|] eqn:E1.
  - rewrite except_icon_run. unfold log; simpl.
    destruct b1; simpl; rewrite <- app_assoc; simpl;
      (eexists _, _; split; [reflexivity|]); simpl;
      (split; [done|split; [|split; [done|lia]]]);
      intros p Hp _; by rewrite ?lookup_insert_ne.
  - simpl.
    destruct (save_fault w (icon_webp_path icon) WebP image) as [[e2 b2]|] eqn:E2;
      [|by destruct Hfault].
    rewrite except_icon_run. unfold log; simpl.
    destruct b2; simpl; repeat rewrite <- app_assoc; simpl;
      (eexists _, _; split; [reflexivity|]); simpl;
      (split; [done|split; [|split; [done|lia]]]);
      intros p Hp Hp'; by rewrite ?lookup_insert_ne.
Qed.

Lemma icon_iteration_step (w : World) (icon : Icon) (c : Z) (st : State) :
  ∃ c' st',
    icon_iteration w (headers_of (api_key_of w)) icon c st = (inr c', st') ∧
    icon_step w icon st c c' st'.
Proof.
  rewrite icon_iteration_spec; cbv zeta.
  destruct (fetch w _) as [e|result|image] eqn:Hfetch.
  - rewrite except_icon_run. eexists _, _; split; [reflexivity|].
    unfold log; simpl. repeat rewrite <- app_assoc; simpl.
    pose proof (step_no_image w icon st c) as Hstep.
    rewrite Hfetch in Hstep. by apply Hstep.
  - eexists _, _; split; [reflexivity|].
    unfold log; simpl. repeat rewrite <- app_assoc; simpl.
    pose proof (step_no_image w icon st c) as Hstep.
    rewrite Hfetch in Hstep. by apply Hstep.
  - destruct (save_fault w (icon_original_path icon) PNG image) eqn:E1;
      [|destruct (save_fault w (icon_webp_path icon) WebP image) eqn:E2].
    + destruct (store_icon_failed w icon image c
                  (log (EvPost (icon_request w icon))
                       (log (EvPrint (MsgGenerating (name icon))) st)))
        as (f & evs & -> & Hd & Hf & Hp & Hs); [left; by rewrite E1|].
      eexists _, _; split; [reflexivity|].
      unfold log; simpl. repeat rewrite <- app_assoc; simpl.
      eapply step_save_failed; [done|left; by rewrite E1|done..].
    + destruct (store_icon_failed w icon image c
                  (log (EvPost (icon_request w icon))
                       (log (EvPrint (MsgGenerating (name icon))) st)))
        as (f & evs & -> & Hd & Hf & Hp & Hs); [right; by rewrite E2|].
      eexists _, _; split; [reflexivity|].
      unfold log; simpl. repeat rewrite <- app_assoc; simpl.
      eapply step_save_failed; [done|right; by rewrite E2|done..].
    + rewrite store_icon_ok by done.
      eexists _, _; split; [reflexivity|].
      unfold log; simpl. repeat rewrite <- app_assoc; simpl.
      by apply step_stored.
Qed.

(** ** The icons loop as a chain of steps *)

Lemma icons_loop_steps (w : World) (l : list Icon) (c : Z) (st : State) :
  ∃ c' st', icons_loop w l c st = (inr c', st') ∧ icons_steps w l st c c' st'.
Proof.
  revert c st. induction l as [|icon l IH]; intros c st.
  - eexists _, _; split; [reflexivity|constructor].
  - destruct (icon_iteration_step w icon c st) as (c1 & st1 & Hrun & Hstep).
    destruct (IH c1 st1) as (c' & st' & Hloop & Hsteps).
    exists c', st'. split; [|by econstructor].
    unfold icons_loop in *; simpl. unfold bind. by rewrite Hrun.
Qed.

Lemma icon_step_posts (w : World) (icon : Icon) (st st' : State) (c c' : Z) :
  icon_step w icon st c c' st' →
  posts (trace st') = posts (trace st) ++ [icon_request w icon].
Proof.
  intros [_|image f evs _ _ _ _ Hevs _|image _ _ _]; simpl; rewrite posts_app.
  - reflexivity.
  - change (posts (EvPrint (MsgGenerating (name icon))
                   :: EvPost (icon_request w icon) :: evs))
      with (icon_request w icon :: posts evs).
    by rewrite Hevs.
  - reflexivity.
Qed.

Lemma icon_step_count (w : World) (icon : Icon) (st st' : State) (c c' : Z) :
  icon_step w icon st c c' st' → c' = c ∨ c' = c + 1.
Proof. intros []; auto. Qed.

Lemma icon_step_dirs (w : World) (icon : Icon) (st st' : State) (c c' : Z) :
  icon_step w icon st c c' st' → dirs (fs st') = dirs (fs st).
Proof. by intros []. Qed.

Lemma icon_step_frame (w : World) (icon : Icon) (st st' : State) (c c' : Z)
    (p : string) :
  icon_step w icon st c c' st' →
  p ∉ icon_paths icon →
  files (fs st') !! p = files (fs st) !! p.
Proof.
  unfold icon_paths. intros Hstep Hp.
  assert (p ≠ icon_original_path icon ∧ p ≠ icon_webp_path icon) as [Hp1 Hp2]
    by (split; intros ->; apply Hp; set_solver).
  destruct Hstep as [_|image f evs _ _ _ Hf _ _|image _ _ _]; simpl.
  - reflexivity.
  - by apply Hf.
  - by rewrite !lookup_insert_ne.
Qed.

Lemma icons_steps_posts (w : World) (l : list Icon) (st st' : State) (c c' : Z) :
  icons_steps w l st c c' st' →
  posts (trace st') = posts (trace st) ++ map (icon_request w) l.
Proof.
  induction 1 as [|icon l st st1 st' c c1 c' Hstep _ IH]; simpl.
  - by rewrite app_nil_r.
  - rewrite IH, (icon_step_posts _ _ _ _ _ _ Hstep), <- app_assoc. reflexivity.
Qed.

Lemma icons_steps_count (w : World) (l : list Icon) (st st' : State) (c c' : Z) :
  icons_steps w l st c c' st' → c ≤ c' ≤ c + Z.of_nat (length l).
Proof.
  induction 1 as [|icon l st st1 st' c c1 c' Hstep _ IH]; simpl length.
  - lia.
  - destruct (icon_step_count _ _ _ _ _ _ Hstep); lia.
Qed.

Lemma icons_steps_dirs (w : World) (l : list Icon) (st st' : State) (c c' : Z) :
  icons_steps w l st c c' st' → dirs (fs st') = dirs (fs st).
Proof.
  induction 1 as [|icon l st st1 st' c c1 c' Hstep _ IH]; [done|].
  by rewrite IH, (icon_step_dirs _ _ _ _ _ _ Hstep).
Qed.

Lemma icons_steps_frame (w : World) (l : list Icon) (st st' : State) (c c' : Z)
    (p : string) :
  icons_steps w l st c c' st' →
  p ∉ flat_map icon_paths l →
  files (fs st') !! p = files (fs st) !! p.
Proof.
  induction 1 as [|icon l st st1 st' c c1 c' Hstep _ IH]; [done|].
  change (flat_map icon_paths (icon :: l))
    with (icon_paths icon ++ flat_map icon_paths l).
  rewrite elem_of_app. intros Hp.
  rewrite IH by tauto. eapply icon_step_frame; [done|tauto].
Qed.

(** The trace only grows. *)
Lemma icons_steps_trace (w : World) (l : list Icon) (st st' : State) (c c' : Z) :
  icons_steps w l st c c' st' →
  ∃ evs, trace st' = trace st ++ evs.
Proof.
  induction 1 as [|icon l st st1 st' c c1 c' Hstep _ [evs IH]].
  - exists []. by rewrite app_nil_r.
  - rewrite IH. destruct Hstep; simpl; rewrite <- app_assoc; eauto.
Qed.

(** A turn whose answer gives no image leaves the count and the files. *)
Lemma icon_step_no_image (w : World) (icon : Icon) (st st' : State) (c c' : Z) :
  icon_step w icon st c c' st' →
  (∀ image, fetch w (http w (length (posts (trace st))) (icon_request w icon))
            ≠ FetchImage image) →
  c' = c ∧ fs st' = fs st.
Proof.
  intros [_|image f evs Hf _ _ _ _ _|image Hf _ _] Hno.
  - done.
  - by destruct (Hno image).
  - by destruct (Hno image).
Qed.

(** A turn that counts has stored both files. *)
Lemma icon_step_counted (w : World) (icon : Icon) (st st' : State) (c : Z) :
  icon_step w icon st c (c + 1) st' →
  ∃ image,
    fetch w (http w (length (posts (trace st))) (icon_request w icon))
      = FetchImage image ∧
    save_fault w (icon_original_path icon) PNG image = None ∧
    save_fault w (icon_webp_path icon) WebP image = None ∧
    st' = {| fs := fs_with_image (icon_original_path icon) (icon_webp_path icon)
                     image (fs st);
             trace := trace st ++ icon_success_events w icon |}.
Proof.
  inversion 1 as [_ Hc|image f evs _ _ _ _ _ _ Hc|image Hf H1 H2 Hc]; try lia.
  by exists image.
Qed.

(** A turn with a good answer and no fault counts. *)
Lemma icon_step_good (w : World) (icon : Icon) (st st' : State) (c c' : Z)
    (image : Image) :
  icon_step w icon st c c' st' →
  fetch w (http w (length (posts (trace st))) (icon_request w icon))
    = FetchImage image →
  save_fault w (icon_original_path icon) PNG image = None →
  save_fault w (icon_webp_path icon) WebP image = None →
  c' = c + 1 ∧
  st' = {| fs := fs_with_image (icon_original_path icon) (icon_webp_path icon)
                   image (fs st);
           trace := trace st ++ icon_success_events w icon |}.
Proof.
  intros [Hno|image' f evs Hf Hfault _ _ _ _|image' Hf _ _] Hfetch H1 H2.
  - by destruct (Hno image).
  - rewrite Hfetch in Hf. injection Hf as <-. by destruct Hfault.
  - rewrite Hfetch in Hf. by injection Hf as <-.
Qed.

Lemma index_shift (w : World) (icon : Icon) (st st' : State) (c c' : Z) (j : nat) :
  icon_step w icon st c c' st' →
  (length (posts (trace st')) + j = length (posts (trace st)) + S j)%nat.
Proof.
  intros Hstep. rewrite (icon_step_posts _ _ _ _ _ _ Hstep), length_app; simpl. lia.
Qed.

(** One answer without an image keeps the count below the number of icons,
    and the paths of that icon as they were. *)
Lemma icons_steps_one_failed (w : World) (l : list Icon) (st st' : State)
    (c c' : Z) (i : nat) (icon : Icon) :
  icons_steps w l st c c' st' →
  l !! i = Some icon →
  (∀ image, fetch w (http w (length (posts (trace st)) + i) (icon_request w icon))
            ≠ FetchImage image) →
  c' < c + Z.of_nat (length l) ∧
  (NoDup (flat_map icon_paths l) →
   ∀ p, p ∈ icon_paths icon → files (fs st') !! p = files (fs st) !! p).
Proof.
  intros Hsteps. revert i.
  induction Hsteps as [|icon0 l st st1 st' c c1 c' Hstep Hsteps IH];
    intros i Hi Hno; [done|].
  change (flat_map icon_paths (icon0 :: l))
    with (icon_paths icon0 ++ flat_map icon_paths l).
  destruct i as [|j]; simpl in Hi.
  - injection Hi as ->. rewrite Nat.add_0_r in Hno.
    destruct (icon_step_no_image _ _ _ _ _ _ Hstep Hno) as [-> Hfs].
    pose proof (icons_steps_count _ _ _ _ _ _ Hsteps). simpl length.
    split; [lia|].
    intros Hnd p Hp. apply NoDup_app in Hnd as (_ & Hdisj & _).
    rewrite <- Hfs. eapply icons_steps_frame; [done|]. by apply Hdisj.
  - rewrite <- (index_shift _ _ _ _ _ _ j Hstep) in Hno.
    destruct (IH j Hi Hno) as [Hlt Hfiles].
    destruct (icon_step_count _ _ _ _ _ _ Hstep). 
    all: simpl length; split; [lia|].
    all: intros Hnd p Hp; apply NoDup_app in Hnd as (_ & Hdisj & Hnd).
    all: rewrite Hfiles by done.
    all: eapply icon_step_frame; [done|].
    all: intros Hp0; apply (Hdisj p Hp0).
    all: apply list_elem_of_In, in_flat_map; exists icon.
    all: split; apply list_elem_of_In; [by eapply list_elem_of_lookup_2|done].
Qed.

(** When no answer gives an image the loop changes no file. *)
Lemma icons_steps_none (w : World) (l : list Icon) (st st' : State) (c c' : Z) :
  icons_steps w l st c c' st' →
  (∀ i icon, l !! i = Some icon →
     ∀ image, fetch w (http w (length (posts (trace st)) + i) (icon_request w icon))
              ≠ FetchImage image) →
  c' = c ∧ fs st' = fs st.
Proof.
  induction 1 as [|icon0 l st st1 st' c c1 c' Hstep Hsteps IH]; intros Hno; [done|].
  destruct (icon_step_no_image _ _ _ _ _ _ Hstep) as [-> Hfs].
  { intros image. specialize (Hno 0%nat icon0 eq_refl image).
    by rewrite Nat.add_0_r in Hno. }
  rewrite <- Hfs. apply IH. intros j icon Hj image.
  rewrite (index_shift _ _ _ _ _ _ j Hstep). by apply (Hno (S j)).
Qed.

(** When every turn counted, every answer was good, nothing refused a save,
    and the trace is the one of six good turns. *)
Lemma icons_steps_all (w : World) (l : list Icon) (st st' : State) (c c' : Z) :
  icons_steps w l st c c' st' →
  c' = c + Z.of_nat (length l) →
  trace st' = trace st ++ flat_map (icon_success_events w) l ∧
  ∀ i icon, l !! i = Some icon →
    ∃ image,
      fetch w (http w (length (posts (trace st)) + i) (icon_request w icon))
        = FetchImage image ∧
      save_fault w (icon_original_path icon) PNG image = None ∧
      save_fault w (icon_webp_path icon) WebP image = None ∧
      (NoDup (flat_map icon_paths l) →
       files (fs st') !! icon_original_path icon = Some (Stored PNG 95 image) ∧
       files (fs st') !! icon_webp_path icon = Some (Stored WebP 85 image)).
Proof.
  induction 1 as [|icon0 l st st1 st' c c1 c' Hstep Hsteps IH]; intros Hc.
  - split; [by rewrite app_nil_r|]. intros i icon Hi. done.
  - pose proof (icons_steps_count _ _ _ _ _ _ Hsteps) as Hbound.
    simpl length in Hc.
    assert (c1 = c + 1) as -> by (destruct (icon_step_count _ _ _ _ _ _ Hstep); lia).
    destruct (icon_step_counted _ _ _ _ _ Hstep) as (image0 & Hf0 & H1 & H2 & Hst1).
    destruct IH as [Htr Hall]; [lia|]. clear Hbound Hc.
    split.
    { rewrite Htr, Hst1; simpl. by rewrite <- app_assoc. }
    change (flat_map icon_paths (icon0 :: l))
      with (icon_paths icon0 ++ flat_map icon_paths l).
    intros [|j] icon Hi; simpl in Hi.
    + injection Hi as <-. rewrite Nat.add_0_r.
      exists image0. do 3 (split; [done|]).
      intros Hnd. apply NoDup_app in Hnd as (Hnd0 & Hdisj & _).
      apply NoDup_cons in Hnd0 as [Hne _].
      rewrite !(icons_steps_frame _ _ _ _ _ _ _ Hsteps)
        by (apply Hdisj; unfold icon_paths; set_solver).
      rewrite Hst1; simpl.
      rewrite lookup_insert_eq, lookup_insert_ne, lookup_insert_eq; [done|].
      intros Heq. apply Hne. rewrite Heq. set_solver.
    + destruct (Hall j icon Hi) as (image & Hf & H1' & H2' & Hfiles).
      rewrite (index_shift _ _ _ _ _ _ j Hstep) in Hf.
      exists image. do 3 (split; [done|]).
      intros Hnd. apply NoDup_app in Hnd as (_ & _ & Hnd). by apply Hfiles.
Qed.

Lemma fs_with_image_id (p1 p2 : string) (image : Image) (f : FS) :
  files f !! p1 = Some (Stored PNG 95 image) →
  files f !! p2 = Some (Stored WebP 85 image) →
  fs_with_image p1 p2 image f = f.
Proof.
  intros H1 H2. unfold fs_with_image.
  rewrite (insert_id _ _ _ H1), (insert_id _ _ _ H2). by destruct f.
Qed.

(** When every answer is good, nothing refuses a save and the files are there
    already with the same images, the loop counts every icon and leaves the
    file system as it is. *)
Lemma icons_steps_again (w : World) (l : list Icon) (st st' : State) (c c' : Z) :
  icons_steps w l st c c' st' →
  (∀ i icon, l !! i = Some icon →
     ∃ image,
       fetch w (http w (length (posts (trace st)) + i) (icon_request w icon))
         = FetchImage image ∧
       save_fault w (icon_original_path icon) PNG image = None ∧
       save_fault w (icon_webp_path icon) WebP image = None ∧
       files (fs st) !! icon_original_path icon = Some (Stored PNG 95 image) ∧
       files (fs st) !! icon_webp_path icon = Some (Stored WebP 85 image)) →
  c' = c + Z.of_nat (length l) ∧
  fs st' = fs st ∧
  trace st' = trace st ++ flat_map (icon_success_events w) l.
Proof.
  induction 1 as [|icon0 l st st1 st' c c1 c' Hstep Hsteps IH]; intros Hall.
  - simpl. rewrite app_nil_r. split; [lia|done].
  - destruct (Hall 0%nat icon0 eq_refl) as (image0 & Hf0 & H1 & H2 & Ho & Hw).
    rewrite Nat.add_0_r in Hf0.
    destruct (icon_step_good _ _ _ _ _ _ _ Hstep Hf0 H1 H2) as [-> Hst1].
    rewrite (fs_with_image_id _ _ _ _ Ho Hw) in Hst1.
    destruct IH as (-> & Hfs & Htr).
    { intros j icon Hj. destruct (Hall (S j) icon Hj) as (image & Hf & ? & ? & ? & ?).
      exists image. rewrite (index_shift _ _ _ _ _ _ j Hstep).
      rewrite Hst1; simpl. done. }
    rewrite Hfs, Htr, Hst1; simpl. rewrite <- app_assoc.
    simpl length. split; [lia|done].
Qed.

(** ** What [fetch] makes of the answers *)

Lemma fetch_error_status (w : World) (response : Response) :
  is_error_status (status_code response) = true →
  fetch w (PostReturns response) = FetchRaised (HTTPError (status_code response)).
Proof.
  intros Hs. unfold fetch, fetch_response, raise_for_status. by rewrite Hs.
Qed.

Lemma fetch_request_fails (w : World) (p : PostResult) :
  request_fails p → ∃ e, fetch w p = FetchRaised e.
Proof.
  destruct p as [e|response]; [by exists e|].
  intros Hs. exists (HTTPError (status_code response)). by apply fetch_error_status.
Qed.

Lemma fetch_raised_no_image (w : World) (p : PostResult) (e : exn) :
  fetch w p = FetchRaised e → ∀ image, fetch w p ≠ FetchImage image.
Proof. intros -> image. discriminate. Qed.

(** Without an ["artifacts"] field the answer ends in the [else] branch, or in
    a [TypeError] when the body is no JSON object at all. *)
Lemma fetch_no_field (w : World) (status : Z) (v : json) :
  is_error_status status = false →
  ¬ has_field "artifacts" v →
  fetch w (PostReturns {| status_code := status; body := Some v |})
    = FetchNoArtifacts v ∨
  fetch w (PostReturns {| status_code := status; body := Some v |})
    = FetchRaised TypeError.
Proof.
  intros Hs Hno. unfold fetch, fetch_response, raise_for_status; simpl. rewrite Hs.
  unfold response_json; simpl.
  destruct v as [| | | | s | l | m]; simpl; auto.
  - destruct (contains_str "artifacts" s); auto.
  - destruct (existsb _ l); auto.
  - case_bool_decide as Hin; [|auto].
    destruct Hin as [x Hx]. destruct Hno. by exists m, x.
Qed.

Lemma fetch_empty_artifacts (w : World) (status : Z) (m : gmap string json) :
  is_error_status status = false →
  m !! "artifacts" = Some (JArr []) →
  fetch w (PostReturns {| status_code := status; body := Some (JObj m) |})
    = FetchRaised IndexError.
Proof.
  intros Hs Hm. unfold fetch, fetch_response, raise_for_status; simpl. rewrite Hs.
  unfold response_json, decode_first_artifact; simpl.
  rewrite Hm. rewrite bool_decide_eq_true_2 by eauto. reflexivity.
Qed.

Lemma fetch_image_answer (w : World) (p : PostResult) (image : Image) :
  image_answer w p image → fetch w p = FetchImage image.
Proof.
  intros (status & m & first & rest & encoded & data & -> & Hs & Hm & Hf & Hb & Hi).
  unfold fetch, fetch_response, raise_for_status; simpl. rewrite Hs.
  unfold response_json, decode_first_artifact; simpl.
  rewrite Hm. rewrite bool_decide_eq_true_2 by eauto. simpl.
  rewrite Hf. simpl. rewrite Hb. simpl. unfold Image_open. by rewrite Hi.
Qed.

(** ** The icons script as a whole *)

Lemma icons_paths_NoDup : NoDup (flat_map icon_paths icons).
Proof. apply (bool_decide_unpack _). vm_compute. reflexivity. Qed.

Lemma icons_run_ready (w : World) (st : State) :
  py_not (api_key_of w) = false →
  dir_ready w st icons_dir →
  ∃ c st2,
    generate_business_icons w st
      = (inr (c =? 6), {| fs := fs st2; trace := trace st2 ++ summary_events c |}) ∧
    icons_steps w icons
      {| fs := fs_with_dir icons_dir (fs st);
         trace := trace st ++ [EvMakedirs icons_dir true] |} 0 c st2.
Proof.
  intros Hkey Hdir. rewrite generate_business_icons_spec by done.
  rewrite os_makedirs_ready by done.
  destruct (icons_loop_steps w icons 0
              {| fs := fs_with_dir icons_dir (fs st);
                 trace := trace st ++ [EvMakedirs icons_dir true] |})
    as (c & st2 & Hloop & Hsteps).
  unfold icons_loop in Hloop. rewrite Hloop. by exists c, st2.
Qed.

Lemma icons_run_refused (w : World) (st : State) (e : exn) :
  py_not (api_key_of w) = false →
  icons_dir ∉ dirs (fs st) →
  mkdir_fault w icons_dir = Some e →
  generate_business_icons w st
    = (inl e, {| fs := fs st; trace := trace st ++ [EvMakedirs icons_dir true] |}).
Proof.
  intros Hkey Hd He. rewrite generate_business_icons_spec by done.
  by rewrite (os_makedirs_refused _ _ _ e).
Qed.

(** The three single-image scripts never raise. *)
Lemma run_single_total (s : Single) (w : World) (st : State) :
  ∃ b st', run_single s w st = (inr b, st').
Proof.
  destruct (py_not (api_key_of w)) eqn:Hkey.
  - unfold api_key_of in Hkey.
    destruct s;
      cbv [run_single generate_dashboard_mockup generate_hero_image
           generate_investment_visual bind os_getenv ret];
      rewrite Hkey; eauto.
  - rewrite run_single_spec by done; cbv zeta.
    destruct (fetch w _) as [e|result|image].
    + rewrite except_single_run. eauto.
    + eauto.
    + apply store_single_total.
Qed.

(** ** The requests of an invocation *)

Lemma store_single_posts (s : Single) (w : World) (image : Image) (st : State) :
  posts (trace (store_single s w image st).2) = posts (trace st).
Proof.
  unfold store_single, try_except, bind.
  assert (∀ m st0, posts (trace st0 ++ [EvPrint m]) = posts (trace st0)) as Hprint
    by (intros; rewrite posts_app; apply app_nil_r).
  assert (∀ p fmt q st0,
            posts (trace (Image_save w image p fmt q st0).2) = posts (trace st0))
    as Hsave.
  { intros p fmt q st0.
    destruct (Image_save_frame w image p fmt q st0) as (_ & _ & ->).
    rewrite posts_app. apply app_nil_r. }
  assert (posts (trace (os_makedirs w assets_dir true st).2) = posts (trace st))
    as Hmk.
  { unfold os_makedirs. case_bool_decide; [|destruct (mkdir_fault w assets_dir)];
      simpl; rewrite posts_app; apply app_nil_r. }
  destruct (os_makedirs w assets_dir true st) as [[e|[]] st1]; simpl in Hmk;
    [rewrite except_single_run; simpl; by rewrite Hprint|].
  specialize (Hsave (original_path_of s) PNG 95 st1) as Hs1.
  destruct (Image_save w image (original_path_of s) PNG 95 st1) as [[e|[]] st2];
    simpl in Hs1; [rewrite except_single_run; simpl; by rewrite Hprint, Hs1|].
  specialize (Hsave (webp_path_of s) WebP 85 st2) as Hs2.
  destruct (Image_save w image (webp_path_of s) WebP 85 st2) as [[e|[]] st3];
    simpl in Hs2; [rewrite except_single_run; simpl; by rewrite Hprint, Hs2, Hs1|].
  simpl. unfold log; simpl. rewrite !posts_app; simpl. rewrite !app_nil_r.
  by rewrite Hs2, Hs1.
Qed.

Lemma run_single_posts (s : Single) (w : World) (st : State) :
  py_not (api_key_of w) = false →
  posts (trace (run_single s w st).2)
  = posts (trace st) ++ [request_of w (data_of s)].
Proof.
  intros Hkey. rewrite run_single_spec by done; cbv zeta.
  assert (posts (trace (log (EvPost (request_of w (data_of s))) st))
          = posts (trace st) ++ [request_of w (data_of s)]) as Hpost
    by (unfold log; simpl; by rewrite posts_app).
  destruct (fetch w _) as [e|result|image].
  - rewrite except_single_run; simpl. rewrite posts_app; simpl.
    rewrite app_nil_r. apply posts_app.
  - simpl. rewrite posts_app; simpl. rewrite app_nil_r. apply posts_app.
  - by rewrite store_single_posts.
Qed.

Lemma icons_run_posts (w : World) (st : State) :
  py_not (api_key_of w) = false →
  dir_ready w st icons_dir →
  posts (trace (generate_business_icons w st).2)
  = posts (trace st) ++ map (icon_request w) icons.
Proof.
  intros Hkey Hdir.
  destruct (icons_run_ready w st Hkey Hdir) as (c & st2 & -> & Hsteps); simpl.
  rewrite posts_app; simpl. rewrite app_nil_r.
  rewrite (icons_steps_posts _ _ _ _ _ _ Hsteps); simpl.
  rewrite posts_app; simpl. by rewrite app_nil_r.
Qed.

(** ** An icon whose answer gives no image *)

Lemma icons_steps_reported (w : World) (l : list Icon) (st st' : State)
    (c c' : Z) (i : nat) (icon : Icon) :
  icons_steps w l st c c' st' →
  l !! i = Some icon →
  (∀ image, fetch w (http w (length (posts (trace st)) + i) (icon_request w icon))
            ≠ FetchImage image) →
  EvPrint (no_image_msg icon
             (fetch w (http w (length (posts (trace st)) + i) (icon_request w icon))))
    ∈ trace st'.
Proof.
  intros Hsteps. revert i.
  induction Hsteps as [|icon0 l st st1 st' c c1 c' Hstep Hsteps IH];
    intros i Hi Hno; [done|].
  destruct i as [|j]; simpl in Hi.
  - injection Hi as ->. rewrite Nat.add_0_r in *.
    destruct (icons_steps_trace _ _ _ _ _ _ Hsteps) as [evs ->].
    destruct Hstep as [_|image f evs' Hf _ _ _ _ _|image Hf _ _].
    + simpl. set_solver.
    + by destruct (Hno image).
    + by destruct (Hno image).
  - rewrite <- (index_shift _ _ _ _ _ _ j Hstep) in *. by apply IH.
Qed.

Lemma icons_run_one_failed (w : World) (st : State) (i : nat) (icon : Icon) :
  py_not (api_key_of w) = false →
  dir_ready w st icons_dir →
  icons !! i = Some icon →
  (∀ image, fetch w (http w (length (posts (trace st)) + i) (icon_request w icon))
            ≠ FetchImage image) →
  ∃ st',
    generate_business_icons w st = (inr false, st') ∧
    posts (trace st') = posts (trace st) ++ map (icon_request w) icons ∧
    (∀ p, p ∈ icon_paths icon → files (fs st') !! p = files (fs st) !! p) ∧
    EvPrint (no_image_msg icon
               (fetch w (http w (length (posts (trace st)) + i)
                                (icon_request w icon))))
      ∈ trace st'.
Proof.
  intros Hkey Hdir Hi Hno.
  pose proof (icons_run_posts w st Hkey Hdir) as Hposts.
  destruct (icons_run_ready w st Hkey Hdir) as (c & st2 & Hrun & Hsteps).
  rewrite Hrun in Hposts. rewrite Hrun.
  assert (length (posts (trace st ++ [EvMakedirs icons_dir true]))
          = length (posts (trace st))) as Hlen
    by (rewrite posts_app; simpl; by rewrite app_nil_r).
  destruct (icons_steps_one_failed w icons _ _ _ _ i icon Hsteps Hi) as [Hlt Hfiles].
  { simpl. by rewrite Hlen. }
  pose proof (icons_steps_reported w icons _ _ _ _ i icon Hsteps Hi) as Hrep.
  simpl in Hrep. rewrite Hlen in Hrep. specialize (Hrep Hno).
  pose proof (icons_steps_count _ _ _ _ _ _ Hsteps) as Hc.
  replace (c =? 6) with false by (symmetry; apply Z.eqb_neq; simpl in *; lia).
  clear Hc Hlt. eexists; split; [reflexivity|]. simpl.
  split; [done|]. split.
  - intros p Hp. rewrite (Hfiles icons_paths_NoDup p Hp); simpl.
    by rewrite files_fs_with_dir.
  - set_solver.
Qed.

(** ** Runs that return [True] *)

Lemma single_paths_differ (s : Single) : original_path_of s ≠ webp_path_of s.
Proof. destruct s; apply (bool_decide_unpack _); vm_compute; reflexivity. Qed.

Lemma run_single_good (s : Single) (w : World) (st : State) (image : Image) :
  py_not (api_key_of w) = false →
  fetch w (http w (length (posts (trace st))) (request_of w (data_of s)))
    = FetchImage image →
  dir_ready w st assets_dir →
  save_fault w (original_path_of s) PNG image = None →
  save_fault w (webp_path_of s) WebP image = None →
  run_single s w st
  = (inr true,
     {| fs := fs_with_image (original_path_of s) (webp_path_of s) image
                (fs_with_dir assets_dir (fs st));
        trace := trace st ++ EvPost (request_of w (data_of s))
                             :: single_success_events s image |}).
Proof.
  intros Hkey Hfetch Hdir H1 H2.
  rewrite run_single_spec by done; cbv zeta. rewrite Hfetch.
  rewrite store_single_ok by done. simpl. by rewrite <- app_assoc.
Qed.

Lemma run_single_true_inv (s : Single) (w : World) (st st' : State) :
  run_single s w st = (inr true, st') →
  py_not (api_key_of w) = false ∧
  ∃ image,
    fetch w (http w (length (posts (trace st))) (request_of w (data_of s)))
      = FetchImage image ∧
    dir_ready w st assets_dir ∧
    save_fault w (original_path_of s) PNG image = None ∧
    save_fault w (webp_path_of s) WebP image = None.
Proof.
  intros Hrun. destruct (py_not (api_key_of w)) eqn:Hkey.
  { pose proof (run_no_key (SingleImage s) w st Hkey) as Hno. simpl in Hno.
    rewrite Hno in Hrun. discriminate. }
  split; [done|].
  rewrite run_single_spec in Hrun by done; cbv zeta in Hrun.
  destruct (fetch w _) as [e|result|image].
  - rewrite except_single_run in Hrun. discriminate.
  - discriminate.
  - exists image. split; [done|].
    by destruct (store_single_true_inv _ _ _ _ _ Hrun) as (? & ? & ?).
Qed.

Lemma icons_run_true_inv (w : World) (st st' : State) :
  generate_business_icons w st = (inr true, st') →
  py_not (api_key_of w) = false ∧
  dir_ready w st icons_dir ∧
  ∃ st2,
    st' = {| fs := fs st2; trace := trace st2 ++ summary_events 6 |} ∧
    icons_steps w icons
      {| fs := fs_with_dir icons_dir (fs st);
         trace := trace st ++ [EvMakedirs icons_dir true] |} 0 6 st2.
Proof.
  intros Hrun. destruct (py_not (api_key_of w)) eqn:Hkey.
  { pose proof (run_no_key BusinessIcons w st Hkey) as Hno. simpl in Hno.
    rewrite Hno in Hrun. discriminate. }
  split; [done|].
  destruct (dir_ready_dec w st icons_dir) as [Hdir|(Hd & e & He)].
  - split; [done|].
    destruct (icons_run_ready w st Hkey Hdir) as (c & st2 & Hrun' & Hsteps).
    rewrite Hrun' in Hrun. injection Hrun as Hc <-.
    apply Z.eqb_eq in Hc as ->. by exists st2.
  - rewrite (icons_run_refused w st e) in Hrun by done. discriminate.
Qed.

Lemma saves_icon_success_events (w : World) (l : list Icon) :
  saves (flat_map (icon_success_events w) l)
  = flat_map (λ o, writes_at o.1 o.2)
      (map (λ icon, (icon_original_path icon, icon_webp_path icon)) l).
Proof.
  induction l as [|icon l IH]; [done|].
  change (flat_map (icon_success_events w) (icon :: l))
    with (icon_success_events w icon ++ flat_map (icon_success_events w) l).
  rewrite saves_app, IH. reflexivity.
Qed.

(** ** Running a script a second time *)

Lemma single_again (s : Single) (w : World) (st0 st1 : State) :
  run_single s w st0 = (inr true, st1) →
  http w (length (posts (trace st0)) + 1 + 0) (request_of w (data_of s))
  = http w (length (posts (trace st0)) + 0) (request_of w (data_of s)) →
  ∃ image,
    trace st1 = trace st0 ++ EvPost (request_of w (data_of s))
                             :: single_success_events s image ∧
    run_single s w st1
    = (inr true,
       {| fs := fs st1;
          trace := trace st1 ++ EvPost (request_of w (data_of s))
                                :: single_success_events s image |}).
Proof.
  intros Hrun Hsame.
  destruct (run_single_true_inv s w st0 st1 Hrun)
    as (Hkey & image & Hfetch & Hdir & H1 & H2).
  rewrite (run_single_good s w st0 image) in Hrun by done.
  injection Hrun as <-. exists image. split; [done|].
  rewrite (run_single_good s w _ image); try done.
  - f_equal. f_equal. cbn [fs].
    rewrite fs_with_dir_id by (simpl; apply elem_of_fs_with_dir).
    apply fs_with_image_id; simpl.
    + rewrite lookup_insert_ne by (apply not_eq_sym, single_paths_differ).
      apply lookup_insert_eq.
    + apply lookup_insert_eq.
  - cbn [trace]. rewrite posts_app, length_app; simpl.
    rewrite !Nat.add_0_r in Hsame. by rewrite Hsame.
  - left. simpl. apply elem_of_fs_with_dir.
Qed.

Lemma icons_again (w : World) (st0 st1 : State) :
  generate_business_icons w st0 = (inr true, st1) →
  (∀ i icon, icons !! i = Some icon →
     http w (length (posts (trace st0)) + length icons + i) (icon_request w icon)
     = http w (length (posts (trace st0)) + i) (icon_request w icon)) →
  trace st1 = trace st0 ++ EvMakedirs icons_dir true
                :: flat_map (icon_success_events w) icons
                   ++ summary_events 6 ∧
  generate_business_icons w st1
  = (inr true,
     {| fs := fs st1;
        trace := trace st1 ++ EvMakedirs icons_dir true
                   :: flat_map (icon_success_events w) icons
                      ++ summary_events 6 |}).
Proof.
  intros Hrun Hsame.
  destruct (icons_run_true_inv w st0 st1 Hrun) as (Hkey & Hdir & st2 & -> & Hsteps).
  destruct (icons_steps_all _ _ _ _ _ _ Hsteps eq_refl) as [Htrace Hall].
  cbn [trace fs] in *.
  assert (length (posts (trace st0 ++ [EvMakedirs icons_dir true]))
          = length (posts (trace st0))) as Hlen0
    by (rewrite posts_app; simpl; by rewrite app_nil_r).
  assert (icons_dir ∈ dirs (fs st2)) as Hin.
  { rewrite (icons_steps_dirs _ _ _ _ _ _ Hsteps); simpl. apply elem_of_fs_with_dir. }
  split; [by rewrite Htrace, <- !app_assoc|].
  set (st1 := {| fs := fs st2; trace := trace st2 ++ summary_events 6 |}).
  assert (dir_ready w st1 icons_dir) as Hdir1 by (by left).
  destruct (icons_run_ready w st1 Hkey Hdir1) as (c & st3 & -> & Hsteps').
  assert (length (posts (trace st1 ++ [EvMakedirs icons_dir true]))
          = (length (posts (trace st0)) + length icons)%nat) as Hlen1.
  { subst st1; cbn [trace]. rewrite !posts_app; simpl. rewrite !app_nil_r.
    rewrite (icons_steps_posts _ _ _ _ _ _ Hsteps); simpl.
    rewrite posts_app; simpl. rewrite app_nil_r, length_app. reflexivity. }
  destruct (icons_steps_again _ _ _ _ _ _ Hsteps') as (-> & Hfs & Htrace').
  { intros i icon Hi. cbn [trace fs].
    destruct (Hall i icon Hi) as (image & Hfetch & H1 & H2 & Hfiles).
    destruct (Hfiles icons_paths_NoDup) as [Ho Hw].
    exists image. rewrite Hlen1, (Hsame i icon Hi).
    rewrite Hlen0 in Hfetch. rewrite fs_with_dir_id by done. done. }
  cbn [fs trace] in Hfs, Htrace'. rewrite fs_with_dir_id in Hfs by done.
  f_equal. rewrite Hfs, Htrace'. subst st1; cbn [fs trace].
  by rewrite <- !app_assoc.
Qed.

(** ** What an invocation adds to the trace *)

Lemma icon_step_events (w : World) (icon : Icon) (st st' : State) (c c' : Z) :
  icon_step w icon st c c' st' →
  ∃ evs, trace st' = trace st ++ evs ∧
         posts evs = [icon_request w icon] ∧
         (length (saves evs) ≤ 2)%nat.
Proof.
  intros [_|image f evs _ _ _ _ Hevs Hs|image _ _ _]; cbn [trace].
  - eexists; split; [reflexivity|]. split; [reflexivity|simpl; lia].
  - eexists; split; [reflexivity|]. split.
    + change (posts (EvPrint (MsgGenerating (name icon))
                     :: EvPost (icon_request w icon) :: evs))
        with (icon_request w icon :: posts evs).
      by rewrite Hevs.
    + exact Hs.
  - eexists; split; [reflexivity|]. split; [reflexivity|simpl; lia].
Qed.

Lemma icons_steps_events (w : World) (l : list Icon) (st st' : State) (c c' : Z) :
  icons_steps w l st c c' st' →
  ∃ evs, trace st' = trace st ++ evs ∧
         posts evs = map (icon_request w) l ∧
         (length (saves evs) ≤ 2 * length l)%nat.
Proof.
  induction 1 as [|icon l st st1 st' c c1 c' Hstep _ (evs & Htr & Hp & Hs)].
  - exists []. rewrite app_nil_r. split; [done|]. split; [done|simpl; lia].
  - destruct (icon_step_events _ _ _ _ _ _ Hstep) as (evs0 & Htr0 & Hp0 & Hs0).
    exists (evs0 ++ evs). rewrite Htr, Htr0, <- app_assoc. split; [done|].
    rewrite posts_app, saves_app, length_app, Hp0, Hp. split; [done|].
    simpl length. lia.
Qed.

Lemma store_single_events (s : Single) (w : World) (image : Image) (st : State) :
  ∃ evs, trace (store_single s w image st).2 = trace st ++ evs ∧
         posts evs = [] ∧
         (length (saves evs) ≤ 2)%nat.
Proof.
  unfold store_single, try_except, bind.
  assert (trace (os_makedirs w assets_dir true st).2
          = trace st ++ [EvMakedirs assets_dir true]) as Hmk.
  { unfold os_makedirs.
    case_bool_decide; [|destruct (mkdir_fault w assets_dir)]; done. }
  destruct (os_makedirs w assets_dir true st) as [[e|[]] st1]; cbn [snd] in Hmk.
  { rewrite except_single_run; cbn [snd log trace]. rewrite Hmk, <- app_assoc.
    eexists; split; [reflexivity|]. split; [reflexivity|simpl; lia]. }
  destruct (Image_save_frame w image (original_path_of s) PNG 95 st1) as (_ & _ & Hs1).
  destruct (Image_save w image (original_path_of s) PNG 95 st1) as [[e|[]] st2];
    cbn [snd] in Hs1.
  { rewrite except_single_run; cbn [snd log trace].
    rewrite Hs1, Hmk, <- !app_assoc.
    eexists; split; [reflexivity|]. split; [reflexivity|simpl; lia]. }
  destruct (Image_save_frame w image (webp_path_of s) WebP 85 st2) as (_ & _ & Hs2).
  destruct (Image_save w image (webp_path_of s) WebP 85 st2) as [[e|[]] st3];
    cbn [snd] in Hs2.
  { rewrite except_single_run; cbn [snd log trace].
    rewrite Hs2, Hs1, Hmk, <- !app_assoc.
    eexists; split; [reflexivity|]. split; [reflexivity|simpl; lia]. }
  unfold print, ret, log; cbn [snd trace fs].
  rewrite Hs2, Hs1, Hmk, <- !app_assoc.
  eexists; split; [reflexivity|]. split; [reflexivity|simpl; lia].
Qed.

Lemma run_events (r : Runner) (w : World) (st : State) :
  ∃ evs, trace (run r w st).2 = trace st ++ evs ∧
         (posts evs = [] ∨ posts evs = requests_of w r) ∧
         (length (saves evs) ≤ 2 * length (posts evs))%nat.
Proof.
  destruct (py_not (api_key_of w)) eqn:Hkey.
  { rewrite run_no_key by done. cbn [snd trace].
    eexists; split; [reflexivity|]. split; [by left|simpl; lia]. }
  destruct r as [|s]; cbn [run].
  - destruct (dir_ready_dec w st icons_dir) as [Hdir|(Hd & e & He)].
    + destruct (icons_run_ready w st Hkey Hdir) as (c & st2 & -> & Hsteps).
      destruct (icons_steps_events _ _ _ _ _ _ Hsteps) as (evs & Htr & Hp & Hs).
      cbn [snd trace] in *. rewrite Htr, <- !app_assoc.
      eexists; split; [reflexivity|].
      rewrite !posts_app, !saves_app, !length_app, Hp.
      split; [right; simpl; by rewrite ?app_nil_r|].
      rewrite length_map in *. simpl in Hs |- *. lia.
    + rewrite (icons_run_refused w st e) by done. cbn [snd trace].
      eexists; split; [reflexivity|]. split; [by left|simpl; lia].
  - rewrite run_single_spec by done; cbv zeta.
    destruct (fetch w _) as [e|result|image].
    + rewrite except_single_run; cbn [snd log trace]. rewrite <- app_assoc.
      eexists; split; [reflexivity|]. split; [by right|simpl; lia].
    + cbn [snd log trace]. rewrite <- app_assoc.
      eexists; split; [reflexivity|]. split; [by right|simpl; lia].
    + destruct (store_single_events s w image
                  (log (EvPost (request_of w (data_of s))) st))
        as (evs & -> & Hp & Hs).
      cbn [log trace]. rewrite <- app_assoc.
      eexists; split; [reflexivity|].
      change (posts ([EvPost (request_of w (data_of s))] ++ evs))
        with (request_of w (data_of s) :: posts evs).
      change (saves ([EvPost (request_of w (data_of s))] ++ evs))
        with (saves evs).
      rewrite Hp. split; [by right|simpl; lia].
Qed.

(** ** Only the first artifact counts *)

Lemma for_each_ext {A B} (l : list A) (body1 body2 : A → B → M B) (acc : B)
    (st : State) :
  (∀ x b st0, body1 x b st0 = body2 x b st0) →
  for_each l body1 acc st = for_each l body2 acc st.
Proof.
  intros Hext. revert acc st. induction l as [|x l IH]; intros acc st; [done|].
  simpl. unfold bind. rewrite Hext.
  destruct (body2 x acc st) as [[e|acc'] st']; [done|apply IH].
Qed.

Lemma fetch_retail (f : list json → list json) (w : World) (p : PostResult) :
  fetch (retail_world f w) (retail_answer f p) = fetch w p.
Proof.
  destruct p as [e|[status [v|]]]; [done| |done].
  unfold fetch, retail_answer, fetch_response, raise_for_status; cbn [status_code body fmap option_fmap option_map].
  destruct (is_error_status status); [done|].
  unfold response_json; cbn [body].
  destruct v as [| | | | | |m]; try done.
  cbn [retail_json].
  destruct (m !! "artifacts") as [[| | | | |[|first rest]|]|] eqn:Hm; try done.
  unfold py_in, decode_first_artifact, getitem_key.
  rewrite lookup_insert_eq, Hm.
  rewrite !bool_decide_eq_true_2 by eauto. reflexivity.
Qed.

Lemma icon_iteration_retail (f : list json → list json) (w : World) (icon : Icon)
    (c : Z) (st : State) :
  icon_iteration (retail_world f w) (headers_of (api_key_of w)) icon c st
  = icon_iteration w (headers_of (api_key_of w)) icon c st.
Proof.
  rewrite icon_iteration_spec.
  rewrite (icon_iteration_spec (retail_world f w)); cbv zeta.
  change (http (retail_world f w) (length (posts (trace st)))
               (icon_request (retail_world f w) icon))
    with (retail_answer f (http w (length (posts (trace st))) (icon_request w icon))).
  rewrite fetch_retail. reflexivity.
Qed.

Lemma run_retail (f : list json → list json) (r : Runner) (w : World) (st : State) :
  run r (retail_world f w) st = run r w st.
Proof.
  destruct (py_not (api_key_of w)) eqn:Hkey.
  { rewrite !run_no_key by done. reflexivity. }
  destruct r as [|s]; cbn [run].
  - rewrite !generate_business_icons_spec by done.
    change (os_makedirs (retail_world f w)) with (os_makedirs w).
    destruct (os_makedirs w icons_dir true st) as [[e|[]] st1]; [done|].
    change (api_key_of (retail_world f w)) with (api_key_of w).
    rewrite (for_each_ext icons _ _ 0 st1 (icon_iteration_retail f w)).
    reflexivity.
  - rewrite !run_single_spec by done; cbv zeta.
    change (http (retail_world f w) (length (posts (trace st)))
                 (request_of (retail_world f w) (data_of s)))
      with (retail_answer f (http w (length (posts (trace st)))
                                    (request_of w (data_of s)))).
    rewrite fetch_retail. reflexivity.
Qed.

(** ** Exceptions that leave a script *)

(** The icons script raises exactly when its [os.makedirs] does; the loop and
    what follows never raise. *)
Lemma icons_run_total_when_ready (w : World) (st : State) :
  py_not (api_key_of w) = true ∨ dir_ready w st icons_dir →
  ∃ b st', generate_business_icons w st = (inr b, st').
Proof.
  destruct (py_not (api_key_of w)) eqn:Hkey.
  - intros _. pose proof (run_no_key BusinessIcons w st Hkey) as Hrun.
    simpl in Hrun. rewrite Hrun. eauto.
  - intros [?|Hdir]; [done|].
    destruct (icons_run_ready w st Hkey Hdir) as (c & st2 & -> & _). eauto.
Qed.

(** ** When an answer gives an image *)

Lemma fetch_image_inv (w : World) (p : PostResult) (image : Image) :
  fetch w p = FetchImage image → image_answer w p image.
Proof.
  destruct p as [e|[status [v|]]]; [done| |].
  - unfold fetch, fetch_response, raise_for_status, response_json; simpl.
    destruct (is_error_status status) eqn:Hs; [done|].
    destruct v as [| | | |s|l|m]; simpl; try done.
    + destruct (contains_str "artifacts" s); done.
    + destruct (existsb _ l); done.
    + case_bool_decide as Hin; [|done].
      unfold decode_first_artifact, getitem_key; simpl.
      destruct (m !! "artifacts") as [artifacts|] eqn:Hm; [|done]. simpl.
      destruct artifacts as [| | | |s|[|first rest]|m']; simpl; try done.
      * destruct (String.get 0 s); done.
      * destruct first as [| | | | | |fm]; simpl; try done.
        destruct (fm !! "base64") as [[| | | |encoded| |]|] eqn:Hf; simpl; try done.
        destruct (b64decode w encoded) as [e|data] eqn:Hb; simpl; [done|].
        unfold Image_open.
        destruct (pil_open w data) as [e|image'] eqn:Hi; [done|].
        intros [= <-]. by exists status, m, fm, rest, encoded, data.
  - unfold fetch, fetch_response, raise_for_status, response_json; simpl.
    by destruct (is_error_status status).
Qed.

Lemma fetch_image_iff (w : World) (p : PostResult) (image : Image) :
  fetch w p = FetchImage image ↔ image_answer w p image.
Proof. split; [apply fetch_image_inv|apply fetch_image_answer]. Qed.

Lemma fetch_no_image (w : World) (p : PostResult) :
  (∀ image, ¬ image_answer w p image) →
  ∀ image, fetch w p ≠ FetchImage image.
Proof. intros Hno image Hf. by apply (Hno image), fetch_image_inv. Qed.

Lemma icons_steps_one_good (w : World) (l : list Icon) (st st' : State)
    (c c' : Z) (i : nat) (icon : Icon) (image : Image) :
  icons_steps w l st c c' st' →
  NoDup (flat_map icon_paths l) →
  l !! i = Some icon →
  fetch w (http w (length (posts (trace st)) + i) (icon_request w icon))
    = FetchImage image →
  save_fault w (icon_original_path icon) PNG image = None →
  save_fault w (icon_webp_path icon) WebP image = None →
  files (fs st') !! icon_original_path icon = Some (Stored PNG 95 image) ∧
  files (fs st') !! icon_webp_path icon = Some (Stored WebP 85 image).
Proof.
  intros Hsteps. revert i.
  induction Hsteps as [|icon0 l st st1 st' c c1 c' Hstep Hsteps IH];
    intros i Hnd Hi Hf H1 H2; [done|].
  change (flat_map icon_paths (icon0 :: l))
    with (icon_paths icon0 ++ flat_map icon_paths l) in Hnd.
  apply NoDup_app in Hnd as (Hnd0 & Hdisj & Hnd).
  destruct i as [|j]; simpl in Hi.
  - clear IH. injection Hi as ->. rewrite Nat.add_0_r in Hf.
    destruct (icon_step_good _ _ _ _ _ _ _ Hstep Hf H1 H2) as [_ ->].
    apply NoDup_cons in Hnd0 as [Hne _].
    rewrite !(icons_steps_frame _ _ _ _ _ _ _ Hsteps)
      by (apply Hdisj; unfold icon_paths; set_solver).
    cbn [fs files fs_with_image].
    rewrite lookup_insert_eq, lookup_insert_ne, lookup_insert_eq; [done|].
    intros Heq. apply Hne. rewrite Heq. set_solver.
  - rewrite <- (index_shift _ _ _ _ _ _ j Hstep) in Hf. by apply (IH j).
Qed.

(** ** Where a stored image comes from *)

Lemma os_makedirs_files (w : World) (d : string) (st : State) :
  files (fs (os_makedirs w d true st).2) = files (fs st).
Proof.
  unfold os_makedirs. case_bool_decide; [done|].
  by destruct (mkdir_fault w d).
Qed.

Lemma Image_save_provenance (w : World) (image : Image) (p0 : string)
    (fmt0 : Format) (q0 : Z) (st : State) (p : string) (fmt : Format) (q : Z)
    (img : Image) :
  files (fs (Image_save w image p0 fmt0 q0 st).2) !! p = Some (Stored fmt q img) →
  files (fs st) !! p = Some (Stored fmt q img) ∨ img = image.
Proof.
  unfold Image_save.
  destruct (save_fault w p0 fmt0 image) as [[e []]|]; cbn [snd fs files set_fs log];
    [|by left|].
  - destruct (decide (p0 = p)) as [->|Hne].
    + rewrite lookup_insert_eq. discriminate.
    + rewrite lookup_insert_ne by done. by left.
  - destruct (decide (p0 = p)) as [->|Hne].
    + rewrite lookup_insert_eq. intros [= _ _ <-]. by right.
    + rewrite lookup_insert_ne by done. by left.
Qed.

Lemma store_single_provenance (s : Single) (w : World) (image : Image)
    (st : State) (p : string) (fmt : Format) (q : Z) (img : Image) :
  files (fs (store_single s w image st).2) !! p = Some (Stored fmt q img) →
  files (fs st) !! p = Some (Stored fmt q img) ∨ img = image.
Proof.
  unfold store_single, try_except, bind.
  pose proof (os_makedirs_files w assets_dir st) as Hmk.
  destruct (os_makedirs w assets_dir true st) as [[e|[]] st1]; cbn [snd] in Hmk.
  { rewrite except_single_run; cbn [snd log fs]. rewrite Hmk. by left. }
  pose proof (Image_save_provenance w image (original_path_of s) PNG 95 st1
                p fmt q img) as H1.
  destruct (Image_save w image (original_path_of s) PNG 95 st1) as [[e|[]] st2];
    cbn [snd] in H1.
  { rewrite except_single_run; cbn [snd log fs]. rewrite <- Hmk. exact H1. }
  pose proof (Image_save_provenance w image (webp_path_of s) WebP 85 st2
                p fmt q img) as H2.
  destruct (Image_save w image (webp_path_of s) WebP 85 st2) as [[e|[]] st3];
    cbn [snd] in H2.
  { rewrite except_single_run; cbn [snd log fs]. rewrite <- Hmk.
    intros Hp. destruct (H2 Hp); [auto|by right]. }
  unfold print, ret, log; cbn [snd fs]. rewrite <- Hmk.
  intros Hp. destruct (H2 Hp); [auto|by right].
Qed.

Lemma store_icon_provenance (w : World) (icon : Icon) (image : Image) (c : Z)
    (st : State) (p : string) (fmt : Format) (q : Z) (img : Image) :
  files (fs (store_icon w icon image c st).2) !! p = Some (Stored fmt q img) →
  files (fs st) !! p = Some (Stored fmt q img) ∨ img = image.
Proof.
  unfold store_icon, try_except, bind.
  pose proof (Image_save_provenance w image (icon_original_path icon) PNG 95 st
                p fmt q img) as H1.
  destruct (Image_save w image (icon_original_path icon) PNG 95 st) as [[e|[]] st1];
    cbn [snd] in H1.
  { rewrite except_icon_run; cbn [snd log fs]. exact H1. }
  pose proof (Image_save_provenance w image (icon_webp_path icon) WebP 85 st1
                p fmt q img) as H2.
  destruct (Image_save w image (icon_webp_path icon) WebP 85 st1) as [[e|[]] st2];
    cbn [snd] in H2.
  { rewrite except_icon_run; cbn [snd log fs].
    intros Hp. destruct (H2 Hp); [auto|by right]. }
  unfold print, ret, log; cbn [snd fs].
  intros Hp. destruct (H2 Hp); [auto|by right].
Qed.

Lemma run_single_provenance (s : Single) (w : World) (st : State) (p : string)
    (fmt : Format) (q : Z) (img : Image) :
  files (fs (run_single s w st).2) !! p = Some (Stored fmt q img) →
  files (fs st) !! p = Some (Stored fmt q img) ∨
  image_answer w (http w (length (posts (trace st))) (request_of w (data_of s)))
    img.
Proof.
  destruct (py_not (api_key_of w)) eqn:Hkey.
  { pose proof (run_no_key (SingleImage s) w st Hkey) as Hrun. cbn [run] in Hrun.
    rewrite Hrun. by left. }
  rewrite run_single_spec by done; cbv zeta.
  destruct (fetch w _) as [e|result|image] eqn:Hfetch.
  - rewrite except_single_run. by left.
  - by left.
  - intros Hp. destruct (store_single_provenance _ _ _ _ _ _ _ _ Hp) as [?| ->].
    + by left.
    + right. by apply fetch_image_inv.
Qed.

Lemma icon_iteration_provenance (w : World) (icon : Icon) (c : Z) (st : State)
    (p : string) (fmt : Format) (q : Z) (img : Image) :
  files (fs (icon_iteration w (headers_of (api_key_of w)) icon c st).2) !! p
    = Some (Stored fmt q img) →
  files (fs st) !! p = Some (Stored fmt q img) ∨
  image_answer w (http w (length (posts (trace st))) (icon_request w icon)) img.
Proof.
  rewrite icon_iteration_spec; cbv zeta.
  destruct (fetch w _) as [e|result|image] eqn:Hfetch.
  - rewrite except_icon_run. by left.
  - by left.
  - intros Hp. destruct (store_icon_provenance _ _ _ _ _ _ _ _ _ Hp) as [?| ->].
    + by left.
    + right. by apply fetch_image_inv.
Qed.

Lemma icons_loop_provenance (w : World) (l : list Icon) (c : Z) (st : State)
    (p : string) (fmt : Format) (q : Z) (img : Image) :
  files (fs (icons_loop w l c st).2) !! p = Some (Stored fmt q img) →
  files (fs st) !! p = Some (Stored fmt q img) ∨
  ∃ i icon, l !! i = Some icon ∧
    image_answer w (http w (length (posts (trace st)) + i) (icon_request w icon))
      img.
Proof.
  revert c st. induction l as [|icon l IH]; intros c st; [by left|].
  destruct (icon_iteration_step w icon c st) as (c1 & st1 & Hrun & Hstep).
  pose proof (icon_iteration_provenance w icon c st p fmt q img) as Hhere.
  unfold icons_loop in *; simpl. unfold bind. rewrite Hrun in *. cbn [snd] in Hhere.
  intros Hp. destruct (IH c1 st1 Hp) as [Hp1|(j & icon' & Hj & Hans)].
  - destruct (Hhere Hp1) as [?|Hans]; [by left|].
    right. exists 0%nat, icon. rewrite Nat.add_0_r. done.
  - right. exists (S j), icon'. rewrite <- (index_shift _ _ _ _ _ _ j Hstep). done.
Qed.

Lemma run_provenance (r : Runner) (w : World) (st : State) (p : string)
    (fmt : Format) (q : Z) (img : Image) :
  files (fs (run r w st).2) !! p = Some (Stored fmt q img) →
  files (fs st) !! p = Some (Stored fmt q img) ∨
  ∃ i req, requests_of w r !! i = Some req ∧
    image_answer w (http w (length (posts (trace st)) + i) req) img.
Proof.
  destruct r as [|s]; cbn [run].
  - destruct (py_not (api_key_of w)) eqn:Hkey.
    { pose proof (run_no_key BusinessIcons w st Hkey) as Hrun. cbn [run] in Hrun.
      rewrite Hrun. by left. }
    destruct (dir_ready_dec w st icons_dir) as [Hdir|(Hd & e & He)].
    + rewrite generate_business_icons_spec, os_makedirs_ready by done.
      pose proof (icons_loop_provenance w icons 0
                    {| fs := fs_with_dir icons_dir (fs st);
                       trace := trace st ++ [EvMakedirs icons_dir true] |}
                    p fmt q img) as Hloop.
      unfold icons_loop in Hloop.
      destruct (for_each icons _ 0 _) as [[e|c] st2]; cbn [snd fs trace] in *;
        intros Hp; (destruct (Hloop Hp) as [Hp0|(i & icon & Hi & Hans)];
          [left; by rewrite files_fs_with_dir in Hp0|]);
        right; exists i, (icon_request w icon);
        (split; [unfold requests_of; by rewrite lookup_map, Hi|]);
        rewrite posts_app in Hans; simpl in Hans; by rewrite app_nil_r in Hans.
    + rewrite (icons_run_refused w st e) by done. by left.
  - intros Hp. destruct (run_single_provenance _ _ _ _ _ _ _ Hp) as [?|Hans];
      [by left|].
    right. exists 0%nat, (request_of w (data_of s)).
    split; [done|]. by rewrite Nat.add_0_r.
Qed.

(** What a run that returned [True] has on disk. *)
Lemma run_true_outputs (r : Runner) (w : World) (st st' : State) :
  run r w st = (inr true, st') →
  ∀ o, o ∈ outputs_of r →
    ∃ image,
      files (fs st') !! o.1 = Some (Stored PNG 95 image) ∧
      files (fs st') !! o.2 = Some (Stored WebP 85 image).
Proof.
  destruct r as [|s]; cbn [run]; intros Hrun.
  - destruct (icons_run_true_inv w st st' Hrun) as (Hkey & Hdir & st2 & -> & Hsteps).
    destruct (icons_steps_all _ _ _ _ _ _ Hsteps eq_refl) as [_ Hall].
    intros [p1 p2] Ho. unfold outputs_of in Ho.
    apply list_elem_of_In, in_map_iff in Ho as (icon & [= <- <-] & Hin).
    apply list_elem_of_In, list_elem_of_lookup in Hin as [i Hi].
    destruct (Hall i icon Hi) as (image & _ & _ & _ & Hfiles).
    exists image. cbn [fs fst snd]. by apply Hfiles, icons_paths_NoDup.
  - destruct (run_single_true_inv s w st st' Hrun)
      as (Hkey & image & Hfetch & Hdir & H1 & H2).
    rewrite (run_single_good s w st image) in Hrun by done.
    injection Hrun as <-.
    intros o Ho. unfold outputs_of in Ho. apply list_elem_of_singleton in Ho as ->.
    exists image. simpl.
    rewrite lookup_insert_eq, lookup_insert_ne, lookup_insert_eq;
      [done|apply not_eq_sym, single_paths_differ].
Qed.

(** The file of the [i]-th request of a run, when its answer is good. *)
Lemma run_good_request_stored (r : Runner) (w : World) (st : State) (i : nat)
    (req : Request) (o : string * string) (img : Image) :
  py_not (api_key_of w) = false →
  dir_ready w st (output_dir r) →
  requests_of w r !! i = Some req →
  outputs_of r !! i = Some o →
  image_answer w (http w (length (posts (trace st)) + i) req) img →
  save_fault w o.1 PNG img = None →
  save_fault w o.2 WebP img = None →
  files (fs (run r w st).2) !! o.1 = Some (Stored PNG 95 img) ∧
  files (fs (run r w st).2) !! o.2 = Some (Stored WebP 85 img).
Proof.
  intros Hkey Hdir Hreq Hout Hans H1 H2. destruct r as [|s]; cbn [run output_dir] in *.
  - unfold requests_of in Hreq. unfold outputs_of in Hout.
    rewrite lookup_map in Hreq. rewrite lookup_map in Hout.
    destruct (icons !! i) as [icon|] eqn:Hi; [|discriminate].
    injection Hreq as <-. injection Hout as <-. cbn [fst snd] in *.
    destruct (icons_run_ready w st Hkey Hdir) as (c & st2 & -> & Hsteps).
    cbn [snd fs].
    apply (icons_steps_one_good _ _ _ _ _ _ i icon img Hsteps icons_paths_NoDup Hi);
      [|done..].
    cbn [trace]. rewrite posts_app; simpl. rewrite app_nil_r.
    by apply fetch_image_answer.
  - destruct i as [|i]; [|by destruct i].
    injection Hreq as <-. injection Hout as <-. cbn [fst snd] in *.
    rewrite Nat.add_0_r in Hans.
    rewrite (run_single_good s w st img); try done; [|by apply fetch_image_answer].
    cbn [snd fs fs_with_image files].
    rewrite lookup_insert_eq, lookup_insert_ne, lookup_insert_eq;
      [done|apply not_eq_sym, single_paths_differ].
Qed.

(** * The claims *)

(** C1, as the code has it.  When the POST of an image request is answered
    with an error status (a 4xx or 5xx code, on which [raise_for_status]
    raises), a single-image runner prints the failure, returns [False] and
    stops there: nothing but the request and the message is added to the
    trace, and the file system is as before.  The icons runner prints the
    failure of that icon, writes neither of its two files and returns [False]
    in the end, but goes on with the other icons: all six requests are
    sent. *)
Theorem C1_error_status_amended (r : Runner) (w : World) (st : State)
    (i : nat) (req : Request) (response : Response) :
  py_not (api_key_of w) = false →
  (r = BusinessIcons → dir_ready w st icons_dir) →
  requests_of w r !! i = Some req →
  http w (length (posts (trace st)) + i) req = PostReturns response →
  is_error_status (status_code response) = true →
  match r with
  | SingleImage s =>
      run r w st
      = (inr false,
         {| fs := fs st;
            trace := trace st ++
              [ EvPost req;
                EvPrint (MsgRequestFailed "" (HTTPError (status_code response))) ] |})
  | BusinessIcons =>
      ∃ st',
        run r w st = (inr false, st') ∧
        posts (trace st') = posts (trace st) ++ requests_of w r ∧
        ∀ icon, icons !! i = Some icon →
          EvPrint (MsgRequestFailed (name icon) (HTTPError (status_code response)))
            ∈ trace st' ∧
          ∀ p, p ∈ icon_paths icon → files (fs st') !! p = files (fs st) !! p
  end.
Proof.
  intros Hkey Hdir Hreq Hhttp Hstatus. destruct r as [|s].
  - specialize (Hdir eq_refl). unfold requests_of in Hreq.
    rewrite lookup_map in Hreq.
    destruct (icons !! i) as [icon|] eqn:Hi; [|discriminate].
    injection Hreq as <-.
    pose proof (fetch_error_status w response Hstatus) as Hfetch.
    rewrite <- Hhttp in Hfetch.
    destruct (icons_run_one_failed w st i icon Hkey Hdir Hi
                (fetch_raised_no_image _ _ _ Hfetch))
      as (st' & Hrun & Hposts & Hfiles & Hrep).
    exists st'. split; [done|]. split; [done|].
    intros icon' [= <-]. split; [|done].
    by rewrite Hfetch in Hrep.
  - destruct i as [|i]; [|by destruct i]. injection Hreq as <-.
    rewrite Nat.add_0_r in Hhttp. simpl.
    rewrite run_single_spec by done; cbv zeta.
    rewrite Hhttp, fetch_error_status by done.
    rewrite except_single_run. unfold log; simpl.
    by rewrite <- app_assoc.
Qed.

(** The amended C1 on the icons runner when the second answer is a 500, and on
    the hero runner when the service is down. *)
Lemma C1_witness :
  is_error_status 500 = true ∧
  (run BusinessIcons second_fails_world empty_state).1 = inr false ∧
  run (SingleImage HeroImage) down_world empty_state
  = (inr false,
     {| fs := fs empty_state;
        trace := [ EvPost (request_of down_world hero_data);
                   EvPrint (MsgRequestFailed "" (HTTPError 500)) ] |}).
Proof.
  split; [reflexivity|split].
  - destruct (C1_error_status_amended BusinessIcons second_fails_world empty_state
                1 (icon_request second_fails_world qualification)
                {| status_code := 500; body := None |})
      as (st' & Hrun & _).
    + reflexivity.
    + intros _. right. reflexivity.
    + reflexivity.
    + reflexivity.
    + reflexivity.
    + rewrite Hrun. reflexivity.
  - apply (C1_error_status_amended (SingleImage HeroImage) down_world empty_state
             0 (request_of down_world hero_data)
             {| status_code := 500; body := None |}).
    + reflexivity.
    + intros H. discriminate H.
    + reflexivity.
    + reflexivity.
    + reflexivity.
Defined.

(** C1 as stated fails on the icons runner: the second request is answered
    with a 500, yet the runner goes on to send all six requests, and files
    written by this invocation are there when it returns. *)
Lemma C1_counterexample :
  http second_fails_world 1 (icon_request second_fails_world qualification)
    = PostReturns {| status_code := 500; body := None |} ∧
  is_error_status 500 = true ∧
  (run BusinessIcons second_fails_world empty_state).1 = inr false ∧
  length (posts (trace (run BusinessIcons second_fails_world empty_state).2))
    = 6%nat ∧
  files (fs empty_state) !! icon_original_path prospecting = None ∧
  files (fs (run BusinessIcons second_fails_world empty_state).2)
    !! icon_original_path prospecting = Some (Stored PNG 95 sample_image) ∧
  files (fs (run BusinessIcons second_fails_world empty_state).2)
    !! icon_webp_path close_followup = Some (Stored WebP 85 sample_image).
Proof. repeat split; vm_compute; reflexivity. Qed.

(** C2 does not hold of [generate_business_icons]: its [os.makedirs] stands
    before the [try], so when the directory cannot be created the error leaves
    the runner as an exception, with no line printed and no [False] returned.
    The single-image scripts have the same call inside the [try] and return
    [False] in the same world. *)
Theorem C2_makedirs_error_escapes_icons :
  py_not (api_key_of readonly_world) = false ∧
  generate_business_icons readonly_world empty_state
  = (inl PermissionError,
     {| fs := fs empty_state; trace := [EvMakedirs icons_dir true] |}) ∧
  generate_dashboard_mockup readonly_world empty_state
  = (inr false,
     {| fs := fs empty_state;
        trace := [ EvPost (request_of readonly_world dashboard_data);
                   EvMakedirs assets_dir true;
                   EvPrint (MsgErrorGenerating "dashboard mockup"
                              PermissionError) ] |}).
Proof.
  split; [reflexivity|split].
  - apply (icons_run_refused readonly_world empty_state PermissionError).
    + reflexivity.
    + apply not_elem_of_empty.
    + reflexivity.
  - vm_compute. reflexivity.
Qed.

(** C3.  When [STABILITY_API_KEY] is unset, each of the four runners returns
    [False] at once: the only thing it does is print the error line, so no
    request is sent, no directory is created and no file is written. *)
Theorem C3_unset_key_no_side_effects (r : Runner) (w : World) (st : State) :
  api_key_of w = None →
  run r w st
    = (inr false, {| fs := fs st; trace := trace st ++ [EvPrint MsgKeyNotSet] |}) ∧
  posts (trace (run r w st).2) = posts (trace st) ∧
  saves (trace (run r w st).2) = saves (trace st) ∧
  fs (run r w st).2 = fs st.
Proof.
  intros Hkey. rewrite (run_unset r w st Hkey); simpl.
  rewrite posts_app, saves_app; simpl. by rewrite !app_nil_r.
Qed.

(** C3 on the world without the credential. *)
Lemma C3_witness :
  api_key_of unset_world = None ∧
  run BusinessIcons unset_world empty_state
    = (inr false, {| fs := fs empty_state; trace := [EvPrint MsgKeyNotSet] |}) ∧
  run (SingleImage HeroImage) unset_world empty_state
    = (inr false, {| fs := fs empty_state; trace := [EvPrint MsgKeyNotSet] |}).
Proof.
  split; [reflexivity|split].
  - apply (C3_unset_key_no_side_effects BusinessIcons unset_world empty_state).
    reflexivity.
  - apply (C3_unset_key_no_side_effects (SingleImage HeroImage) unset_world
             empty_state).
    reflexivity.
Defined.

(** C4, as the code has it.  When a request is answered with a passing status
    and a JSON body without an ["artifacts"] field, a single-image runner
    prints the failure, returns [False] and changes no file: the trace gains
    the request and one message only.  The icons runner prints the failure of
    that icon, writes neither of its two files and returns [False] in the end,
    but goes on with the other icons, whose files it may write. *)
Theorem C4_missing_artifacts_amended (r : Runner) (w : World) (st : State)
    (i : nat) (req : Request) (status : Z) (v : json) :
  py_not (api_key_of w) = false →
  (r = BusinessIcons → dir_ready w st icons_dir) →
  requests_of w r !! i = Some req →
  http w (length (posts (trace st)) + i) req
    = PostReturns {| status_code := status; body := Some v |} →
  is_error_status status = false →
  ¬ has_field "artifacts" v →
  match r with
  | SingleImage s =>
      ∃ m,
        (m = MsgNoImageData "" (Some v) ∨
         m = MsgErrorGenerating (error_label s) TypeError) ∧
        run r w st
        = (inr false,
           {| fs := fs st; trace := trace st ++ [EvPost req; EvPrint m] |})
  | BusinessIcons =>
      ∃ st',
        run r w st = (inr false, st') ∧
        posts (trace st') = posts (trace st) ++ requests_of w r ∧
        ∀ icon, icons !! i = Some icon →
          (EvPrint (MsgNoImageData (name icon) None) ∈ trace st' ∨
           EvPrint (MsgErrorGenerating (name icon) TypeError) ∈ trace st') ∧
          ∀ p, p ∈ icon_paths icon → files (fs st') !! p = files (fs st) !! p
  end.
Proof.
  intros Hkey Hdir Hreq Hhttp Hstatus Hfield.
  pose proof (fetch_no_field w status v Hstatus Hfield) as Hfetch.
  rewrite <- Hhttp in Hfetch. destruct r as [|s].
  - specialize (Hdir eq_refl). unfold requests_of in Hreq.
    rewrite lookup_map in Hreq.
    destruct (icons !! i) as [icon|] eqn:Hi; [|discriminate].
    injection Hreq as <-.
    destruct (icons_run_one_failed w st i icon Hkey Hdir Hi)
      as (st' & Hrun & Hposts & Hfiles & Hrep).
    { intros image. destruct Hfetch as [-> | ->]; discriminate. }
    exists st'. split; [done|]. split; [done|].
    intros icon' [= <-]. split; [|done].
    destruct Hfetch as [Hf|Hf]; rewrite Hf in Hrep; [by left|by right].
  - destruct i as [|i]; [|by destruct i]. injection Hreq as <-.
    rewrite Nat.add_0_r in Hfetch. simpl.
    rewrite run_single_spec by done; cbv zeta.
    destruct Hfetch as [-> | ->].
    + eexists; split; [by left|]. unfold log; simpl. by rewrite <- app_assoc.
    + rewrite except_single_run. eexists; split; [by right|].
      unfold log; simpl. by rewrite <- app_assoc.
Qed.

(** The amended C4 when the first answer is a JSON object with a [message]
    only. *)
Lemma C4_witness :
  ¬ has_field "artifacts" (JObj {[ "message" := JStr "no image" ]}) ∧
  (run BusinessIcons first_empty_world empty_state).1 = inr false ∧
  (run (SingleImage DashboardMockup) first_empty_world empty_state).1 = inr false.
Proof.
  assert (¬ has_field "artifacts" (JObj {[ "message" := JStr "no image" ]})) as Hno.
  { intros (m & x & [= <-] & Hx). vm_compute in Hx. discriminate Hx. }
  split; [exact Hno|split].
  - destruct (C4_missing_artifacts_amended BusinessIcons first_empty_world
                empty_state 0 (icon_request first_empty_world prospecting) 200
                (JObj {[ "message" := JStr "no image" ]}))
      as (st' & Hrun & _).
    + reflexivity.
    + intros _. right. reflexivity.
    + reflexivity.
    + reflexivity.
    + reflexivity.
    + exact Hno.
    + rewrite Hrun. reflexivity.
  - destruct (C4_missing_artifacts_amended (SingleImage DashboardMockup)
                first_empty_world empty_state 0
                (request_of first_empty_world dashboard_data) 200
                (JObj {[ "message" := JStr "no image" ]}))
      as (m & _ & Hrun).
    + reflexivity.
    + intros H. discriminate H.
    + reflexivity.
    + reflexivity.
    + reflexivity.
    + exact Hno.
    + rewrite Hrun. reflexivity.
Defined.

(** C4 as stated fails on the icons runner: the first answer has no
    ["artifacts"] field, the runner returns [False], and yet it saves the ten
    files of the five other icons. *)
Lemma C4_counterexample :
  http first_empty_world 0 (icon_request first_empty_world prospecting)
    = PostReturns {| status_code := 200;
                     body := Some (JObj {[ "message" := JStr "no image" ]}) |} ∧
  is_error_status 200 = false ∧
  ({[ "message" := JStr "no image" ]} : gmap string json) !! "artifacts" = None ∧
  (run BusinessIcons first_empty_world empty_state).1 = inr false ∧
  length (saves (trace (run BusinessIcons first_empty_world empty_state).2))
    = 10%nat ∧
  files (fs empty_state) !! icon_original_path qualification = None ∧
  files (fs (run BusinessIcons first_empty_world empty_state).2)
    !! icon_original_path qualification = Some (Stored PNG 95 sample_image) ∧
  files (fs (run BusinessIcons first_empty_world empty_state).2)
    !! icon_webp_path qualification = Some (Stored WebP 85 sample_image).
Proof. repeat split; vm_compute; reflexivity. Qed.

(** C5.  A good answer (passing status, first artifact a base64 string that
    decodes to an image) makes the runner save that image twice, at the two
    fixed paths of the script: as PNG with [quality=95] and as WebP with
    [quality=85], provided the file system refuses nothing.  This holds for
    the three single-image runners and for each turn of the icons loop.  And a
    runner returns [True] only after both saves of every image it asked for:
    its [image.save] calls are then exactly these, and both files of every
    pair of paths hold the same image, in the two formats. *)
Theorem C5_two_writes :
  (∀ (s : Single) (w : World) (st : State) (image : Image),
     py_not (api_key_of w) = false →
     image_answer w (http w (length (posts (trace st)))
                            (request_of w (data_of s))) image →
     dir_ready w st assets_dir →
     save_fault w (original_path_of s) PNG image = None →
     save_fault w (webp_path_of s) WebP image = None →
     run_single s w st
     = (inr true,
        {| fs := fs_with_image (original_path_of s) (webp_path_of s) image
                   (fs_with_dir assets_dir (fs st));
           trace := trace st ++ EvPost (request_of w (data_of s))
                                :: single_success_events s image |}) ∧
     saves (EvPost (request_of w (data_of s)) :: single_success_events s image)
     = writes_at (original_path_of s) (webp_path_of s)) ∧
  (∀ (w : World) (icon : Icon) (c : Z) (st : State) (image : Image),
     image_answer w (http w (length (posts (trace st)))
                            (icon_request w icon)) image →
     save_fault w (icon_original_path icon) PNG image = None →
     save_fault w (icon_webp_path icon) WebP image = None →
     icon_iteration w (headers_of (api_key_of w)) icon c st
     = (inr (c + 1),
        {| fs := fs_with_image (icon_original_path icon) (icon_webp_path icon)
                   image (fs st);
           trace := trace st ++ icon_success_events w icon |}) ∧
     saves (icon_success_events w icon)
     = writes_at (icon_original_path icon) (icon_webp_path icon)) ∧
  (∀ (r : Runner) (w : World) (st st' : State),
     run r w st = (inr true, st') →
     saves (trace st') = saves (trace st) ++ writes_of r ∧
     ∀ o, o ∈ outputs_of r →
       ∃ image,
         files (fs st') !! o.1 = Some (Stored PNG 95 image) ∧
         files (fs st') !! o.2 = Some (Stored WebP 85 image)).
Proof.
  split; [|split].
  - intros s w st image Hkey Hans Hdir H1 H2. split; [|reflexivity].
    apply run_single_good; try done. by apply fetch_image_answer.
  - intros w icon c st image Hans H1 H2. split; [|reflexivity].
    destruct (icon_iteration_step w icon c st) as (c' & st' & -> & Hstep).
    destruct (icon_step_good _ _ _ _ _ _ image Hstep) as [-> ->]; try done.
    by apply fetch_image_answer.
  - intros [|s] w st st' Hrun; simpl in Hrun.
    + destruct (icons_run_true_inv w st st' Hrun) as (Hkey & Hdir & st2 & -> & Hsteps).
      destruct (icons_steps_all _ _ _ _ _ _ Hsteps eq_refl) as [Htrace Hall].
      cbn [trace] in Htrace. split.
      * cbn [trace]. rewrite Htrace, !saves_app, saves_icon_success_events.
        unfold writes_of, outputs_of. simpl saves. by rewrite !app_nil_r.
      * intros [p1 p2] Ho. unfold outputs_of in Ho.
        apply list_elem_of_In, in_map_iff in Ho as (icon & [= <- <-] & Hin).
        apply list_elem_of_In, list_elem_of_lookup in Hin as [i Hi].
        destruct (Hall i icon Hi) as (image & _ & _ & _ & Hfiles).
        exists image. simpl. by apply Hfiles, icons_paths_NoDup.
    + destruct (run_single_true_inv s w st st' Hrun)
        as (Hkey & image & Hfetch & Hdir & H1 & H2).
      rewrite (run_single_good s w st image) in Hrun by done.
      injection Hrun as <-. simpl. split.
      * by rewrite saves_app.
      * intros o Ho. unfold outputs_of in Ho. apply list_elem_of_singleton in Ho as ->.
        exists image. simpl.
        rewrite lookup_insert_eq, lookup_insert_ne, lookup_insert_eq;
          [done|apply not_eq_sym, single_paths_differ].
Qed.

Lemma good_answer_image :
  image_answer good_world good_answer sample_image.
Proof.
  exists 200, {[ "artifacts" := JArr [JObj sample_artifact] ]}, sample_artifact,
    [], "iVBORw==", [Byte.x89; Byte.x50; Byte.x4e; Byte.x47].
  repeat split; reflexivity.
Qed.

(** C5 on the mocked service: the dashboard runner, the fifth turn of the icons
    loop, and a whole run of the icons runner. *)
Lemma C5_witness :
  (run_single DashboardMockup good_world empty_state).1 = inr true ∧
  (icon_iteration good_world (headers_of (api_key_of good_world)) solutioning 4
     empty_state).1 = inr 5 ∧
  saves (trace (run BusinessIcons good_world empty_state).2)
  = writes_of BusinessIcons.
Proof.
  destruct C5_two_writes as (Hsingle & Hicon & Htrue).
  split; [|split].
  - destruct (Hsingle DashboardMockup good_world empty_state sample_image)
      as [Hrun _].
    + reflexivity.
    + exact good_answer_image.
    + right. reflexivity.
    + reflexivity.
    + reflexivity.
    + rewrite Hrun. reflexivity.
  - destruct (Hicon good_world solutioning 4 empty_state sample_image)
      as [Hrun _].
    + exact good_answer_image.
    + reflexivity.
    + reflexivity.
    + rewrite Hrun. reflexivity.
  - assert ((run BusinessIcons good_world empty_state).1 = inr true) as Hret
      by (vm_compute; reflexivity).
    destruct (run BusinessIcons good_world empty_state) as [res st'] eqn:Hrun.
    simpl in Hret. subst res.
    destruct (Htrue BusinessIcons good_world empty_state st' Hrun) as [Hsaves _].
    exact Hsaves.
Defined.

(** C6.  Every request a runner sends asks for one image ([samples] is 1).
    Each API call produces at most one image: an invocation makes at most two
    [image.save] calls per POST, and one turn of the icons loop makes one POST
    and at most two [image.save] calls.  The image that is decoded and written
    is the one of the first element of the ["artifacts"] array: when the
    answer to a request starts with an artifact that decodes to [img] and the
    file system refuses nothing, the two files of that request hold [img]
    after the run; conversely every image a run stores is the decoding of the
    first artifact of the answer to one of its requests.  What comes after the
    first element has no influence at all: rewriting the rest of the array in
    every answer, to anything, leaves the return value, the file system and
    the trace of every runner the same. *)
Theorem C6_one_sample_first_artifact (r : Runner) (w : World) (st : State) :
  (∀ req, req ∈ posts (trace (run r w st).2) →
          req ∈ posts (trace st) ∨ samples (req_json req) = 1) ∧
  (∃ evs, trace (run r w st).2 = trace st ++ evs ∧
          (length (saves evs) ≤ 2 * length (posts evs))%nat) ∧
  (∀ icon c st0,
     ∃ evs,
       trace (icon_iteration w (headers_of (api_key_of w)) icon c st0).2
       = trace st0 ++ evs ∧
       posts evs = [icon_request w icon] ∧
       (length (saves evs) ≤ 2)%nat) ∧
  (∀ i req o img,
     py_not (api_key_of w) = false →
     dir_ready w st (output_dir r) →
     requests_of w r !! i = Some req →
     outputs_of r !! i = Some o →
     image_answer w (http w (length (posts (trace st)) + i) req) img →
     save_fault w o.1 PNG img = None →
     save_fault w o.2 WebP img = None →
     files (fs (run r w st).2) !! o.1 = Some (Stored PNG 95 img) ∧
     files (fs (run r w st).2) !! o.2 = Some (Stored WebP 85 img)) ∧
  (∀ p fmt q img,
     files (fs (run r w st).2) !! p = Some (Stored fmt q img) →
     files (fs st) !! p = Some (Stored fmt q img) ∨
     ∃ i req, requests_of w r !! i = Some req ∧
       image_answer w (http w (length (posts (trace st)) + i) req) img) ∧
  (∀ f : list json → list json, run r (retail_world f w) st = run r w st).
Proof.
  destruct (run_events r w st) as (evs & Htr & Hp & Hs).
  split; [|split; [|split; [|split; [|split]]]].
  - intros req. rewrite Htr, posts_app, elem_of_app.
    intros [Hin|Hin]; [by left|right].
    destruct Hp as [Hp|Hp]; rewrite Hp in Hin; [by apply elem_of_nil in Hin|].
    assert (Forall (λ req, samples (req_json req) = 1) (requests_of w r)) as Hall
      by (destruct r as [|[]]; by repeat constructor).
    rewrite Forall_forall in Hall. by apply Hall.
  - by exists evs.
  - intros icon c st0.
    destruct (icon_iteration_step w icon c st0) as (c' & st' & -> & Hstep).
    apply (icon_step_events _ _ _ _ _ _ Hstep).
  - intros i req o img. apply run_good_request_stored.
  - intros p fmt q img. apply run_provenance.
  - intros f. apply run_retail.
Qed.

(** C6 on the mocked service: the first icon and the hero image are on disk
    with the image of the first artifact. *)
Lemma C6_witness :
  files (fs (run BusinessIcons good_world empty_state).2)
    !! icon_original_path prospecting = Some (Stored PNG 95 sample_image) ∧
  files (fs (run (SingleImage HeroImage) good_world empty_state).2)
    !! hero_webp_path = Some (Stored WebP 85 sample_image).
Proof.
  split.
  - destruct (C6_one_sample_first_artifact BusinessIcons good_world empty_state)
      as (_ & _ & _ & Hfirst & _).
    destruct (Hfirst 0%nat (icon_request good_world prospecting)
                (icon_original_path prospecting, icon_webp_path prospecting)
                sample_image) as [Hpng _].
    + reflexivity.
    + right. reflexivity.
    + reflexivity.
    + reflexivity.
    + exact good_answer_image.
    + reflexivity.
    + reflexivity.
    + exact Hpng.
  - destruct (C6_one_sample_first_artifact (SingleImage HeroImage) good_world
                empty_state) as (_ & _ & _ & Hfirst & _).
    destruct (Hfirst 0%nat (request_of good_world hero_data)
                (hero_original_path, hero_webp_path) sample_image) as [_ Hwebp].
    + reflexivity.
    + right. reflexivity.
    + reflexivity.
    + reflexivity.
    + exact good_answer_image.
    + reflexivity.
    + reflexivity.
    + exact Hwebp.
Defined.

(** C7.  Every image request of every runner is sent by one POST to the fixed
    endpoint with a timeout of 120 seconds, and nothing is sent twice: an
    invocation that reaches its requests adds to the requests of the process
    exactly the requests of the script, one per image (one for the three
    single-image scripts, six for the icons), whatever the service answers. *)
Theorem C7_one_post_per_request (r : Runner) (w : World) (st : State) :
  py_not (api_key_of w) = false →
  (r = BusinessIcons → dir_ready w st icons_dir) →
  posts (trace (run r w st).2) = posts (trace st) ++ requests_of w r ∧
  length (requests_of w r)
    = (match r with BusinessIcons => length icons | SingleImage _ => 1%nat end) ∧
  Forall (λ req, req_url req = url ∧ req_timeout req = 120) (requests_of w r).
Proof.
  intros Hkey Hdir. destruct r as [|s]; simpl.
  - split; [by apply icons_run_posts; auto|].
    split; [reflexivity|]. by repeat constructor.
  - split; [by apply run_single_posts|]. split; [reflexivity|].
    by repeat constructor.
Qed.

(** C7 on the icons runner with the service down, and on the dashboard runner
    with a good answer. *)
Lemma C7_witness :
  py_not (api_key_of down_world) = false ∧
  posts (trace (run BusinessIcons down_world empty_state).2)
    = requests_of down_world BusinessIcons ∧
  posts (trace (run (SingleImage DashboardMockup) good_world empty_state).2)
    = requests_of good_world (SingleImage DashboardMockup).
Proof.
  split; [reflexivity|split].
  - apply (C7_one_post_per_request BusinessIcons down_world empty_state).
    + reflexivity.
    + intros _. right. reflexivity.
  - apply (C7_one_post_per_request (SingleImage DashboardMockup) good_world
             empty_state).
    + reflexivity.
    + intros H. discriminate H.
Defined.

(** C8.  Let a runner return [True], and let it be called again while the
    service answers the same requests in the same way (the file system refuses
    the same things as before, that is nothing).  After the first call every
    output path of the script holds the decoded image, as PNG and as WebP.
    The second call returns [True] too and does exactly what the first did:
    the same calls in the same order, among them the same [image.save] calls
    at the same fixed paths.  It overwrites the files of the first call with
    the same images: every output path holds after the second call the image
    it held after the first, and the file system as a whole is the one after
    the first call, so no file is added. *)
Theorem C8_second_run_overwrites (r : Runner) (w : World) (st0 st1 : State) :
  run r w st0 = (inr true, st1) →
  (∀ i req, requests_of w r !! i = Some req →
     http w (length (posts (trace st0)) + length (requests_of w r) + i) req
     = http w (length (posts (trace st0)) + i) req) →
  ∃ evs,
    trace st1 = trace st0 ++ evs ∧
    run r w st1 = (inr true, {| fs := fs st1; trace := trace st1 ++ evs |}) ∧
    saves evs = writes_of r ∧
    dom (files (fs (run r w st1).2)) = dom (files (fs st1)) ∧
    ∀ o, o ∈ outputs_of r →
      ∃ image,
        files (fs st1) !! o.1 = Some (Stored PNG 95 image) ∧
        files (fs st1) !! o.2 = Some (Stored WebP 85 image) ∧
        files (fs (run r w st1).2) !! o.1 = Some (Stored PNG 95 image) ∧
        files (fs (run r w st1).2) !! o.2 = Some (Stored WebP 85 image).
Proof.
  intros Hrun Hsame.
  pose proof (run_true_outputs r w st0 st1 Hrun) as Hout.
  destruct r as [|s]; simpl in Hrun.
  - destruct (icons_again w st0 st1 Hrun) as [Htrace Hrun'].
    { intros i icon Hi.
      replace (length icons) with (length (requests_of w BusinessIcons))
        by apply length_map.
      apply Hsame. unfold requests_of. rewrite lookup_map, Hi. reflexivity. }
    eexists. split; [exact Htrace|]. simpl run. rewrite Hrun'.
    split; [done|]. split; [|split; [done|]].
    + change (saves (EvMakedirs icons_dir true
                     :: flat_map (icon_success_events w) icons
                        ++ summary_events 6))
        with (saves (flat_map (icon_success_events w) icons
                     ++ summary_events 6)).
      rewrite saves_app, saves_icon_success_events. apply app_nil_r.
    + intros o Ho. destruct (Hout o Ho) as (image & Hpng & Hwebp).
      exists image. cbn [snd fs]. done.
  - destruct (single_again s w st0 st1 Hrun) as (image & Htrace & Hrun').
    { apply (Hsame 0%nat). reflexivity. }
    eexists. split; [exact Htrace|]. simpl run. rewrite Hrun'.
    split; [done|]. split; [done|]. split; [done|].
    intros o Ho. destruct (Hout o Ho) as (image' & Hpng & Hwebp).
    exists image'. cbn [snd fs]. done.
Qed.

(** C8 on two runs in a row on the mocked service. *)
Lemma C8_witness :
  (run BusinessIcons good_world
     (run BusinessIcons good_world empty_state).2).1 = inr true ∧
  fs (run (SingleImage HeroImage) good_world
        (run (SingleImage HeroImage) good_world empty_state).2).2
  = fs (run (SingleImage HeroImage) good_world empty_state).2.
Proof.
  split.
  - assert ((run BusinessIcons good_world empty_state).1 = inr true) as Hret
      by (vm_compute; reflexivity).
    destruct (run BusinessIcons good_world empty_state) as [res st1] eqn:Hrun.
    simpl in Hret. subst res.
    destruct (C8_second_run_overwrites BusinessIcons good_world empty_state st1 Hrun)
      as (evs & _ & Hrun' & _).
    + intros i req _. reflexivity.
    + cbn [snd]. rewrite Hrun'. reflexivity.
  - assert ((run (SingleImage HeroImage) good_world empty_state).1 = inr true)
      as Hret by (vm_compute; reflexivity).
    destruct (run (SingleImage HeroImage) good_world empty_state)
      as [res st1] eqn:Hrun.
    simpl in Hret. subst res.
    destruct (C8_second_run_overwrites (SingleImage HeroImage) good_world
                empty_state st1 Hrun)
      as (evs & _ & Hrun' & _).
    + intros i req _. reflexivity.
    + cbn [snd]. rewrite Hrun'. reflexivity.
Defined.

(** C9.  When the ["artifacts"] field of the answer is an empty list, the
    runner does not crash: indexing it raises [IndexError], which the generic
    handler catches (its line is the one printed).  A single-image runner
    returns [False] with the file system untouched; the icons runner prints the
    failure of that icon, writes neither of its two files, and ends with a
    return value, [False]. *)
Theorem C9_empty_artifacts (r : Runner) (w : World) (st : State)
    (i : nat) (req : Request) (status : Z) (m : gmap string json) :
  py_not (api_key_of w) = false →
  (r = BusinessIcons → dir_ready w st icons_dir) →
  requests_of w r !! i = Some req →
  http w (length (posts (trace st)) + i) req
    = PostReturns {| status_code := status; body := Some (JObj m) |} →
  is_error_status status = false →
  m !! "artifacts" = Some (JArr []) →
  match r with
  | SingleImage s =>
      run r w st
      = (inr false,
         {| fs := fs st;
            trace := trace st ++
              [ EvPost req;
                EvPrint (MsgErrorGenerating (error_label s) IndexError) ] |})
  | BusinessIcons =>
      ∃ st',
        run r w st = (inr false, st') ∧
        ∀ icon, icons !! i = Some icon →
          EvPrint (MsgErrorGenerating (name icon) IndexError) ∈ trace st' ∧
          ∀ p, p ∈ icon_paths icon → files (fs st') !! p = files (fs st) !! p
  end.
Proof.
  intros Hkey Hdir Hreq Hhttp Hstatus Hm.
  pose proof (fetch_empty_artifacts w status m Hstatus Hm) as Hfetch.
  rewrite <- Hhttp in Hfetch. destruct r as [|s].
  - specialize (Hdir eq_refl). unfold requests_of in Hreq.
    rewrite lookup_map in Hreq.
    destruct (icons !! i) as [icon|] eqn:Hi; [|discriminate].
    injection Hreq as <-.
    destruct (icons_run_one_failed w st i icon Hkey Hdir Hi
                (fetch_raised_no_image _ _ _ Hfetch))
      as (st' & Hrun & _ & Hfiles & Hrep).
    exists st'. split; [done|].
    intros icon' [= <-]. split; [|done]. by rewrite Hfetch in Hrep.
  - destruct i as [|i]; [|by destruct i]. injection Hreq as <-.
    rewrite Nat.add_0_r in Hfetch. simpl.
    rewrite run_single_spec by done; cbv zeta.
    rewrite Hfetch, except_single_run. unfold log; simpl.
    by rewrite <- app_assoc.
Qed.

(** C9 when every answer carries an empty [artifacts] list. *)
Lemma C9_witness :
  (run BusinessIcons no_artifact_world empty_state).1 = inr false ∧
  run (SingleImage InvestmentVisual) no_artifact_world empty_state
  = (inr false,
     {| fs := fs empty_state;
        trace := [ EvPost (request_of no_artifact_world investment_data);
                   EvPrint (MsgErrorGenerating "investment visual" IndexError) ] |}).
Proof.
  split.
  - destruct (C9_empty_artifacts BusinessIcons no_artifact_world empty_state
                2 (icon_request no_artifact_world needs_assessment) 200
                {[ "artifacts" := JArr [] ]})
      as (st' & Hrun & _).
    + reflexivity.
    + intros _. right. reflexivity.
    + reflexivity.
    + reflexivity.
    + reflexivity.
    + reflexivity.
    + rewrite Hrun. reflexivity.
  - apply (C9_empty_artifacts (SingleImage InvestmentVisual) no_artifact_world
             empty_state 0 (request_of no_artifact_world investment_data) 200
             {[ "artifacts" := JArr [] ]}).
    + reflexivity.
    + intros H. discriminate H.
    + reflexivity.
    + reflexivity.
    + reflexivity.
    + reflexivity.
Defined.

(** C10, as the code has it.  With the credential present, the first thing
    [generate_business_icons] does is [os.makedirs(icons_dir, exist_ok=True)]:
    it comes before every request of the invocation.  When that call does not
    raise, the directory is there when the runner returns, whatever the six
    requests yield; on a directory that exists the call changes nothing.  When
    moreover all six requests fail (transport error or error status), the
    runner returns [False] and the file system it leaves is the one
    [os.makedirs] left: the directory (with its missing ancestors) and no
    file. *)
Theorem C10_icons_directory_first (w : World) (st : State) :
  py_not (api_key_of w) = false →
  dir_ready w st icons_dir →
  (∃ evs, trace (generate_business_icons w st).2
          = trace st ++ EvMakedirs icons_dir true :: evs ∧
          posts evs = requests_of w BusinessIcons) ∧
  icons_dir ∈ dirs (fs (generate_business_icons w st).2) ∧
  (icons_dir ∈ dirs (fs st) → fs_with_dir icons_dir (fs st) = fs st) ∧
  ((∀ i icon, icons !! i = Some icon →
      request_fails (http w (length (posts (trace st)) + i) (icon_request w icon))) →
   (generate_business_icons w st).1 = inr false ∧
   fs (generate_business_icons w st).2 = fs_with_dir icons_dir (fs st) ∧
   files (fs (generate_business_icons w st).2) = files (fs st)).
Proof.
  intros Hkey Hdir.
  pose proof (icons_run_posts w st Hkey Hdir) as Hposts.
  destruct (icons_run_ready w st Hkey Hdir) as (c & st2 & Hrun & Hsteps).
  rewrite Hrun in *; simpl in *.
  destruct (icons_steps_trace _ _ _ _ _ _ Hsteps) as [evs Htrace]; simpl in Htrace.
  assert (length (posts (trace st ++ [EvMakedirs icons_dir true]))
          = length (posts (trace st))) as Hlen
    by (rewrite posts_app; simpl; by rewrite app_nil_r).
  split; [|split; [|split]].
  - exists (evs ++ summary_events c).
    rewrite Htrace, <- !app_assoc. split; [done|].
    rewrite Htrace, <- !app_assoc, !posts_app in Hposts.
    apply app_inv_head in Hposts. simpl in Hposts. by rewrite posts_app.
  - rewrite (icons_steps_dirs _ _ _ _ _ _ Hsteps); simpl.
    apply elem_of_fs_with_dir.
  - apply fs_with_dir_id.
  - intros Hfail.
    destruct (icons_steps_none _ _ _ _ _ _ Hsteps) as [-> Hfs].
    { intros i icon Hi. simpl. rewrite Hlen.
      destruct (fetch_request_fails w _ (Hfail i icon Hi)) as [e He].
      by apply (fetch_raised_no_image _ _ e). }
    simpl in Hfs. rewrite Hfs. split; [done|]. split; [done|].
    apply files_fs_with_dir.
Qed.

(** C10 with the service down: the directory is there, and no file. *)
Lemma C10_witness :
  (generate_business_icons down_world empty_state).1 = inr false ∧
  icons_dir ∈ dirs (fs (generate_business_icons down_world empty_state).2) ∧
  files (fs (generate_business_icons down_world empty_state).2) = ∅.
Proof.
  assert (py_not (api_key_of down_world) = false) as Hkey by reflexivity.
  assert (dir_ready down_world empty_state icons_dir) as Hdir
    by (right; reflexivity).
  destruct (C10_icons_directory_first down_world empty_state Hkey Hdir)
    as (_ & Hin & _ & Hfail).
  destruct Hfail as (Hret & _ & Hfiles).
  { intros i icon _. reflexivity. }
  split; [exact Hret|]. split; [exact Hin|exact Hfiles].
Defined.

(** C10 as stated fails when [os.makedirs] raises: the credential is present,
    and yet the icons directory does not exist when the invocation ends, and
    no request has been sent. *)
Lemma C10_counterexample :
  py_not (api_key_of readonly_world) = false ∧
  (icons_dir ∉ dirs (fs (generate_business_icons readonly_world empty_state).2)) ∧
  posts (trace (generate_business_icons readonly_world empty_state).2) = [].
Proof.
  split; [reflexivity|].
  rewrite (icons_run_refused readonly_world empty_state PermissionError);
    [|reflexivity|apply not_elem_of_empty|reflexivity].
  split; [apply not_elem_of_empty|reflexivity].
Qed.

(** * Further properties of the four scripts *)

Lemma fetch_decode_failure (w : World) (status : Z) (m first : gmap string json)
    (rest : list json) (encoded : string) (e : exn) :
  is_error_status status = false →
  m !! "artifacts" = Some (JArr (JObj first :: rest)) →
  first !! "base64" = Some (JStr encoded) →
  (b64decode w encoded = inl e ∨
   ∃ data, b64decode w encoded = inr data ∧ pil_open w data = inl e) →
  fetch w (PostReturns {| status_code := status; body := Some (JObj m) |})
  = FetchRaised e.
Proof.
  intros Hs Hm Hf Hbad.
  unfold fetch, fetch_response, raise_for_status; simpl. rewrite Hs.
  unfold response_json, decode_first_artifact; simpl.
  rewrite Hm. rewrite bool_decide_eq_true_2 by eauto. simpl.
  rewrite Hf. simpl.
  destruct Hbad as [Hb|(data & Hb & Hi)]; rewrite Hb; simpl; [done|].
  unfold Image_open. by rewrite Hi.
Qed.

(** ** How a run without the credential looks *)

Lemma run_key_present_differs (r : Runner) (w : World) (st : State) :
  py_not (api_key_of w) = false →
  run r w st
  ≠ (inr false, {| fs := fs st; trace := trace st ++ [EvPrint MsgKeyNotSet] |}).
Proof.
  intros Hkey Heq. destruct r as [|s]; cbn [run] in Heq.
  - destruct (dir_ready_dec w st icons_dir) as [Hdir|(Hd & e & He)].
    + destruct (icons_run_ready w st Hkey Hdir) as (c & st2 & Hrun & Hsteps).
      destruct (icons_steps_trace _ _ _ _ _ _ Hsteps) as [evs Htr].
      rewrite Hrun in Heq. injection Heq as _ _ Heq.
      rewrite Htr in Heq; cbn [trace] in Heq. rewrite <- !app_assoc in Heq.
      by apply app_inv_head in Heq.
    + rewrite (icons_run_refused w st e) in Heq by done. discriminate.
  - pose proof (run_single_posts s w st Hkey) as Hposts.
    rewrite Heq in Hposts; cbn [snd trace] in Hposts.
    rewrite posts_app in Hposts. simpl in Hposts.
    apply app_inv_head in Hposts. discriminate.
Qed.

(** X1.  An exported but empty [STABILITY_API_KEY] counts as missing: a runner
    takes the missing-credential exit (error line, [False], nothing else done)
    exactly when the variable is unset or empty. *)
Theorem X1_missing_key_exit_iff (r : Runner) (w : World) (st : State) :
  (api_key_of w = None ∨ api_key_of w = Some "") ↔
  run r w st
  = (inr false, {| fs := fs st; trace := trace st ++ [EvPrint MsgKeyNotSet] |}).
Proof.
  split.
  - intros Hkey. apply run_no_key. by destruct Hkey as [-> | ->].
  - intros Hrun. destruct (py_not (api_key_of w)) eqn:Hkey.
    + unfold py_not in Hkey. destruct (api_key_of w) as [key|]; [|by left].
      right. f_equal. by apply bool_decide_eq_true_1 in Hkey.
    + by destruct (run_key_present_differs r w st Hkey).
Qed.

(** X1 on the world whose credential is the empty string. *)
Lemma X1_witness :
  api_key_of empty_key_world = Some "" ∧
  run (SingleImage DashboardMockup) empty_key_world empty_state
  = (inr false, {| fs := fs empty_state; trace := [EvPrint MsgKeyNotSet] |}).
Proof.
  split; [reflexivity|].
  apply (proj1 (X1_missing_key_exit_iff (SingleImage DashboardMockup)
                  empty_key_world empty_state)).
  right. reflexivity.
Defined.

(** ** The icons directory cannot be created *)

(** X3.  Whenever the [os.makedirs] of [generate_business_icons] raises (the
    credential is set, the icons directory is missing and cannot be created),
    its exception leaves the runner: nothing is caught, no [False] is
    returned, and the call to [os.makedirs] is all the invocation has done, so
    no request is sent and no line is printed. *)
Theorem X3_icons_makedirs_exception_escapes (w : World) (st : State) (e : exn) :
  py_not (api_key_of w) = false →
  icons_dir ∉ dirs (fs st) →
  mkdir_fault w icons_dir = Some e →
  (generate_business_icons w st).1 = inl e ∧
  trace (generate_business_icons w st).2
  = trace st ++ [EvMakedirs icons_dir true].
Proof.
  intros Hkey Hd He. by rewrite (icons_run_refused w st e).
Qed.

(** X3 on the file system that lets no directory be created. *)
Lemma X3_witness :
  (generate_business_icons readonly_world empty_state).1 = inl PermissionError ∧
  posts (trace (generate_business_icons readonly_world empty_state).2) = [].
Proof.
  destruct (X3_icons_makedirs_exception_escapes readonly_world empty_state
              PermissionError) as [Hret Htrace].
  - reflexivity.
  - apply not_elem_of_empty.
  - reflexivity.
  - split; [exact Hret|]. rewrite Htrace. reflexivity.
Defined.

(** ** A request that gives no image *)

Lemma run_single_raised (s : Single) (w : World) (st : State) (e : exn) :
  py_not (api_key_of w) = false →
  fetch w (http w (length (posts (trace st))) (request_of w (data_of s)))
  = FetchRaised e →
  run_single s w st
  = (inr false,
     {| fs := fs st;
        trace := trace st ++
          [ EvPost (request_of w (data_of s));
            EvPrint (failure_msg "" (error_label s) e) ] |}).
Proof.
  intros Hkey Hfetch. rewrite run_single_spec by done; cbv zeta.
  rewrite Hfetch, except_single_run. unfold log; simpl. by rewrite <- app_assoc.
Qed.

Lemma icons_run_raised (w : World) (st : State) (i : nat) (icon : Icon) (e : exn) :
  py_not (api_key_of w) = false →
  dir_ready w st icons_dir →
  icons !! i = Some icon →
  fetch w (http w (length (posts (trace st)) + i) (icon_request w icon))
  = FetchRaised e →
  ∃ st',
    generate_business_icons w st = (inr false, st') ∧
    posts (trace st') = posts (trace st) ++ requests_of w BusinessIcons ∧
    EvPrint (failure_msg (name icon) (name icon) e) ∈ trace st' ∧
    ∀ p, p ∈ icon_paths icon → files (fs st') !! p = files (fs st) !! p.
Proof.
  intros Hkey Hdir Hi Hfetch.
  destruct (icons_run_one_failed w st i icon Hkey Hdir Hi
              (fetch_raised_no_image _ _ _ Hfetch))
    as (st' & Hrun & Hposts & Hfiles & Hrep).
  rewrite Hfetch in Hrep. by exists st'.
Qed.

(** X4.  When [requests.post] itself raises (time-out, connection error), the
    error is caught: a single-image runner prints one line, returns [False]
    and touches no file; the icons runner prints the line of that icon, leaves
    its two paths alone, still sends the other requests and returns [False].
    The line is the one of the [RequestException] clause when the exception
    is one, of the generic clause otherwise. *)
Theorem X4_transport_failure (r : Runner) (w : World) (st : State)
    (i : nat) (req : Request) (e : exn) :
  py_not (api_key_of w) = false →
  (r = BusinessIcons → dir_ready w st icons_dir) →
  requests_of w r !! i = Some req →
  http w (length (posts (trace st)) + i) req = PostRaises e →
  match r with
  | SingleImage s =>
      run r w st
      = (inr false,
         {| fs := fs st;
            trace := trace st ++
              [ EvPost req;
                EvPrint (if is_RequestException e
                         then MsgRequestFailed "" e
                         else MsgErrorGenerating (error_label s) e) ] |})
  | BusinessIcons =>
      ∃ st',
        run r w st = (inr false, st') ∧
        posts (trace st') = posts (trace st) ++ requests_of w r ∧
        ∀ icon, icons !! i = Some icon →
          EvPrint (if is_RequestException e
                   then MsgRequestFailed (name icon) e
                   else MsgErrorGenerating (name icon) e) ∈ trace st' ∧
          ∀ p, p ∈ icon_paths icon → files (fs st') !! p = files (fs st) !! p
  end.
Proof.
  intros Hkey Hdir Hreq Hhttp. destruct r as [|s].
  - specialize (Hdir eq_refl). unfold requests_of in Hreq.
    rewrite lookup_map in Hreq.
    destruct (icons !! i) as [icon|] eqn:Hi; [|discriminate].
    injection Hreq as <-.
    destruct (icons_run_raised w st i icon e Hkey Hdir Hi) as (st' & ? & ? & ? & ?).
    { by rewrite Hhttp. }
    exists st'. split; [done|]. split; [done|]. by intros icon' [= <-].
  - destruct i as [|i]; [|by destruct i]. injection Hreq as <-.
    rewrite Nat.add_0_r in Hhttp. cbn [run].
    apply run_single_raised; [done|]. by rewrite Hhttp.
Qed.

(** X4 when every POST times out. *)
Lemma X4_witness :
  (run BusinessIcons timeout_world empty_state).1 = inr false ∧
  run (SingleImage HeroImage) timeout_world empty_state
  = (inr false,
     {| fs := fs empty_state;
        trace := [ EvPost (request_of timeout_world hero_data);
                   EvPrint (MsgRequestFailed "" Timeout) ] |}).
Proof.
  split.
  - destruct (X4_transport_failure BusinessIcons timeout_world empty_state
                3 (icon_request timeout_world proposal_contracting) Timeout)
      as (st' & Hrun & _).
    + reflexivity.
    + intros _. right. reflexivity.
    + reflexivity.
    + reflexivity.
    + rewrite Hrun. reflexivity.
  - apply (X4_transport_failure (SingleImage HeroImage) timeout_world empty_state
             0 (request_of timeout_world hero_data) Timeout).
    + reflexivity.
    + intros H. discriminate H.
    + reflexivity.
    + reflexivity.
Defined.

(** X5.  When the first artifact is there but its ["base64"] string does not
    decode, or decodes to bytes that [Image.open] rejects, the exception [e]
    of the decoder is caught and reported: a single-image runner returns
    [False] before any file-system call (not even [os.makedirs]); the icons
    runner skips that icon, leaves its two paths alone and returns [False]. *)
Theorem X5_decode_failure (r : Runner) (w : World) (st : State)
    (i : nat) (req : Request) (status : Z) (m first : gmap string json)
    (rest : list json) (encoded : string) (e : exn) :
  py_not (api_key_of w) = false →
  (r = BusinessIcons → dir_ready w st icons_dir) →
  requests_of w r !! i = Some req →
  http w (length (posts (trace st)) + i) req
    = PostReturns {| status_code := status; body := Some (JObj m) |} →
  is_error_status status = false →
  m !! "artifacts" = Some (JArr (JObj first :: rest)) →
  first !! "base64" = Some (JStr encoded) →
  (b64decode w encoded = inl e ∨
   ∃ data, b64decode w encoded = inr data ∧ pil_open w data = inl e) →
  match r with
  | SingleImage s =>
      run r w st
      = (inr false,
         {| fs := fs st;
            trace := trace st ++
              [ EvPost req;
                EvPrint (if is_RequestException e
                         then MsgRequestFailed "" e
                         else MsgErrorGenerating (error_label s) e) ] |})
  | BusinessIcons =>
      ∃ st',
        run r w st = (inr false, st') ∧
        ∀ icon, icons !! i = Some icon →
          EvPrint (if is_RequestException e
                   then MsgRequestFailed (name icon) e
                   else MsgErrorGenerating (name icon) e) ∈ trace st' ∧
          ∀ p, p ∈ icon_paths icon → files (fs st') !! p = files (fs st) !! p
  end.
Proof.
  intros Hkey Hdir Hreq Hhttp Hstatus Hm Hf Hbad.
  pose proof (fetch_decode_failure w status m first rest encoded e
                Hstatus Hm Hf Hbad) as Hfetch.
  rewrite <- Hhttp in Hfetch. destruct r as [|s].
  - specialize (Hdir eq_refl). unfold requests_of in Hreq.
    rewrite lookup_map in Hreq.
    destruct (icons !! i) as [icon|] eqn:Hi; [|discriminate].
    injection Hreq as <-.
    destruct (icons_run_raised w st i icon e Hkey Hdir Hi Hfetch)
      as (st' & ? & ? & ? & ?).
    exists st'. split; [done|]. by intros icon' [= <-].
  - destruct i as [|i]; [|by destruct i]. injection Hreq as <-.
    rewrite Nat.add_0_r in Hfetch. cbn [run]. by apply run_single_raised.
Qed.

(** X5 when the artifact is no base64. *)
Lemma X5_witness :
  (run BusinessIcons garbled_world empty_state).1 = inr false ∧
  run (SingleImage DashboardMockup) garbled_world empty_state
  = (inr false,
     {| fs := fs empty_state;
        trace := [ EvPost (request_of garbled_world dashboard_data);
                   EvPrint (MsgErrorGenerating "dashboard mockup" BinasciiError) ] |}).
Proof.
  split.
  - destruct (X5_decode_failure BusinessIcons garbled_world empty_state
                5 (icon_request garbled_world close_followup) 200
                {[ "artifacts" := JArr [JObj {[ "base64" := JStr "@@@" ]}] ]}
                {[ "base64" := JStr "@@@" ]} [] "@@@" BinasciiError)
      as (st' & Hrun & _).
    + reflexivity.
    + intros _. right. reflexivity.
    + reflexivity.
    + reflexivity.
    + reflexivity.
    + reflexivity.
    + reflexivity.
    + left. reflexivity.
    + rewrite Hrun. reflexivity.
  - apply (X5_decode_failure (SingleImage DashboardMockup) garbled_world
             empty_state 0 (request_of garbled_world dashboard_data) 200
             {[ "artifacts" := JArr [JObj {[ "base64" := JStr "@@@" ]}] ]}
             {[ "base64" := JStr "@@@" ]} [] "@@@" BinasciiError).
    + reflexivity.
    + intros H. discriminate H.
    + reflexivity.
    + reflexivity.
    + reflexivity.
    + reflexivity.
    + reflexivity.
    + left. reflexivity.
Defined.

(** X6.  A single-image runner makes no file-system call unless the answer
    gives an image: whenever the answer to its request is not a passing status
    with a JSON object whose first artifact decodes to an image, it returns
    [False], and all it has done is send the request and print one line; the
    assets directory is not even created. *)
Theorem X6_single_no_image_no_effect (s : Single) (w : World) (st : State) :
  py_not (api_key_of w) = false →
  (∀ image, ¬ image_answer w (http w (length (posts (trace st)))
                                     (request_of w (data_of s))) image) →
  ∃ m,
    run_single s w st
    = (inr false,
       {| fs := fs st;
          trace := trace st ++ [EvPost (request_of w (data_of s)); EvPrint m] |}).
Proof.
  intros Hkey Hno. rewrite run_single_spec by done; cbv zeta.
  destruct (fetch w _) as [e|result|image] eqn:Hfetch.
  - rewrite except_single_run. eexists. unfold log; simpl. by rewrite <- app_assoc.
  - eexists. unfold log; simpl. by rewrite <- app_assoc.
  - by destruct (fetch_no_image w _ Hno image).
Qed.

(** X6 when the service is down. *)
Lemma X6_witness :
  (run_single InvestmentVisual down_world empty_state).1 = inr false ∧
  fs (run_single InvestmentVisual down_world empty_state).2 = fs empty_state.
Proof.
  destruct (X6_single_no_image_no_effect InvestmentVisual down_world empty_state)
    as [m Hrun].
  - reflexivity.
  - intros image (status & m & first & rest & encoded & data & Heq & _).
    discriminate Heq.
  - rewrite Hrun. split; reflexivity.
Defined.

Lemma icons_steps_none_saves (w : World) (l : list Icon) (st st' : State)
    (c c' : Z) :
  icons_steps w l st c c' st' →
  (∀ i icon, l !! i = Some icon →
     ∀ image, fetch w (http w (length (posts (trace st)) + i) (icon_request w icon))
              ≠ FetchImage image) →
  saves (trace st') = saves (trace st).
Proof.
  induction 1 as [|icon0 l st st1 st' c c1 c' Hstep Hsteps IH]; intros Hno; [done|].
  rewrite IH.
  - destruct Hstep as [_|image f evs Hf _ _ _ _ _|image Hf _ _].
    + cbn [trace]. rewrite saves_app. simpl. by rewrite app_nil_r.
    + specialize (Hno 0%nat icon0 eq_refl image).
      rewrite Nat.add_0_r in Hno. by destruct Hno.
    + specialize (Hno 0%nat icon0 eq_refl image).
      rewrite Nat.add_0_r in Hno. by destruct Hno.
  - intros j icon Hj image.
    rewrite (index_shift _ _ _ _ _ _ j Hstep). by apply (Hno (S j)).
Qed.

(** X7.  When none of the six answers gives an image, whatever the reason
    (transport, status, body, artifact, decoding), the icons runner returns
    [False] without a single [image.save] call, and the file system it leaves
    is the one [os.makedirs] left: the directory is its only trace on disk. *)
Theorem X7_icons_no_image_only_directory (w : World) (st : State) :
  py_not (api_key_of w) = false →
  dir_ready w st icons_dir →
  (∀ i icon image, icons !! i = Some icon →
     ¬ image_answer w (http w (length (posts (trace st)) + i)
                              (icon_request w icon)) image) →
  (generate_business_icons w st).1 = inr false ∧
  fs (generate_business_icons w st).2 = fs_with_dir icons_dir (fs st) ∧
  saves (trace (generate_business_icons w st).2) = saves (trace st) ∧
  posts (trace (generate_business_icons w st).2)
  = posts (trace st) ++ requests_of w BusinessIcons.
Proof.
  intros Hkey Hdir Hno.
  pose proof (icons_run_posts w st Hkey Hdir) as Hposts.
  destruct (icons_run_ready w st Hkey Hdir) as (c & st2 & Hrun & Hsteps).
  rewrite Hrun in *; cbn [fst snd fs trace] in *.
  assert (length (posts (trace st ++ [EvMakedirs icons_dir true]))
          = length (posts (trace st))) as Hlen
    by (rewrite posts_app; simpl; by rewrite app_nil_r).
  assert (∀ i icon, icons !! i = Some icon →
            ∀ image,
              fetch w (http w (length (posts (trace st ++ [EvMakedirs icons_dir true])) + i)
                         (icon_request w icon)) ≠ FetchImage image) as Hno'.
  { intros i icon Hi image. rewrite Hlen. apply fetch_no_image.
    intros image'. by apply Hno. }
  destruct (icons_steps_none _ _ _ _ _ _ Hsteps Hno') as [-> Hfs].
  pose proof (icons_steps_none_saves _ _ _ _ _ _ Hsteps Hno') as Hsaves.
  cbn [fs trace] in Hfs, Hsaves.
  split; [done|]. split; [done|]. split; [|done].
  rewrite saves_app, Hsaves, saves_app. simpl. by rewrite !app_nil_r.
Qed.

(** X7 when every artifact is garbled. *)
Lemma X7_witness :
  (generate_business_icons garbled_world empty_state).1 = inr false ∧
  saves (trace (generate_business_icons garbled_world empty_state).2) = [].
Proof.
  destruct (X7_icons_no_image_only_directory garbled_world empty_state)
    as (Hret & _ & Hsaves & _).
  - reflexivity.
  - right. reflexivity.
  - intros i icon image _
      (status & m & first & rest & encoded & data & Heq & _ & Hm & Hf & Hb & _).
    injection Heq as <- <-.
    vm_compute in Hm. injection Hm as <- <-.
    vm_compute in Hf. injection Hf as <-.
    vm_compute in Hb. discriminate Hb.
  - split; [exact Hret|exact Hsaves].
Defined.

(** ** The file system refuses *)

Lemma run_single_fetched (s : Single) (w : World) (st : State) (image : Image) :
  py_not (api_key_of w) = false →
  image_answer w (http w (length (posts (trace st))) (request_of w (data_of s)))
    image →
  run_single s w st
  = store_single s w image (log (EvPost (request_of w (data_of s))) st).
Proof.
  intros Hkey Hans. rewrite run_single_spec by done; cbv zeta.
  by rewrite (fetch_image_answer _ _ _ Hans).
Qed.

(** X8.  In a single-image runner a failing [os.makedirs] is caught by the
    generic handler: the runner prints the line, returns [False] and neither
    save is attempted.  The request has been sent and answered by then. *)
Theorem X8_single_makedirs_failure_caught (s : Single) (w : World) (st : State)
    (image : Image) (e : exn) :
  py_not (api_key_of w) = false →
  image_answer w (http w (length (posts (trace st))) (request_of w (data_of s)))
    image →
  assets_dir ∉ dirs (fs st) →
  mkdir_fault w assets_dir = Some e →
  run_single s w st
  = (inr false,
     {| fs := fs st;
        trace := trace st ++
          [ EvPost (request_of w (data_of s));
            EvMakedirs assets_dir true;
            EvPrint (if is_RequestException e
                     then MsgRequestFailed "" e
                     else MsgErrorGenerating (error_label s) e) ] |}).
Proof.
  intros Hkey Hans Hd He. rewrite (run_single_fetched s w st image) by done.
  unfold store_single, try_except, bind.
  rewrite (os_makedirs_refused w assets_dir _ e) by done.
  rewrite except_single_run. unfold log; simpl. by rewrite <- !app_assoc.
Qed.

(** X8 on the file system that lets no directory be created. *)
Lemma X8_witness :
  run_single HeroImage readonly_world empty_state
  = (inr false,
     {| fs := fs empty_state;
        trace := [ EvPost (request_of readonly_world hero_data);
                   EvMakedirs assets_dir true;
                   EvPrint (MsgErrorGenerating "image" PermissionError) ] |}).
Proof.
  apply (X8_single_makedirs_failure_caught HeroImage readonly_world empty_state
           sample_image PermissionError).
  - reflexivity.
  - exists 200, {[ "artifacts" := JArr [JObj sample_artifact] ]}, sample_artifact,
      [], "iVBORw==", [Byte.x89; Byte.x50; Byte.x4e; Byte.x47].
    repeat split; reflexivity.
  - apply not_elem_of_empty.
  - reflexivity.
Defined.

(** X9.  When the PNG save of a single-image runner fails, the WebP save is
    not attempted: the runner prints the line of the exception and returns
    [False].  The directory has been created by then, and the PNG path holds
    what the failed save left (nothing new, or a truncated file). *)
Theorem X9_first_save_failure (s : Single) (w : World) (st : State)
    (image : Image) (e : exn) (leaves_file : bool) :
  py_not (api_key_of w) = false →
  image_answer w (http w (length (posts (trace st))) (request_of w (data_of s)))
    image →
  dir_ready w st assets_dir →
  save_fault w (original_path_of s) PNG image = Some (e, leaves_file) →
  run_single s w st
  = (inr false,
     {| fs := {| dirs := dirs (fs_with_dir assets_dir (fs st));
                 files := if leaves_file
                          then <[original_path_of s := Truncated]> (files (fs st))
                          else files (fs st) |};
        trace := trace st ++
          [ EvPost (request_of w (data_of s));
            EvMakedirs assets_dir true;
            EvSave (original_path_of s) PNG 95;
            EvPrint (if is_RequestException e
                     then MsgRequestFailed "" e
                     else MsgErrorGenerating (error_label s) e) ] |}).
Proof.
  intros Hkey Hans Hdir Hfault. rewrite (run_single_fetched s w st image) by done.
  unfold store_single, try_except, bind.
  rewrite os_makedirs_ready by done.
  unfold Image_save; cbn [fs trace log set_fs]. rewrite Hfault.
  rewrite except_single_run. unfold log, set_fs.
  destruct leaves_file; cbn [fs trace]; rewrite <- !app_assoc; simpl.
  - by rewrite files_fs_with_dir.
  - do 2 f_equal. unfold fs_with_dir.
    case_bool_decide; [by destruct (fs st)|done].
Qed.

(** X9 on the file system that refuses every PNG. *)
Lemma X9_witness :
  (run_single DashboardMockup (refusing_world PNG) empty_state).1 = inr false ∧
  saves (trace (run_single DashboardMockup (refusing_world PNG) empty_state).2)
  = [ (dashboard_original_path, PNG, 95) ].
Proof.
  pose proof (X9_first_save_failure DashboardMockup (refusing_world PNG)
                empty_state sample_image OSError false) as Hrun.
  rewrite Hrun.
  - split; reflexivity.
  - reflexivity.
  - exists 200, {[ "artifacts" := JArr [JObj sample_artifact] ]}, sample_artifact,
      [], "iVBORw==", [Byte.x89; Byte.x50; Byte.x4e; Byte.x47].
    repeat split; reflexivity.
  - right. reflexivity.
  - reflexivity.
Defined.

(** X10.  When the PNG save goes through and the WebP save fails, a
    single-image runner returns [False] and prints the line of the exception,
    but it does not undo the first save: the PNG file stays on disk with the
    decoded image. *)
Theorem X10_second_save_failure_keeps_png (s : Single) (w : World) (st : State)
    (image : Image) (e : exn) (leaves_file : bool) :
  py_not (api_key_of w) = false →
  image_answer w (http w (length (posts (trace st))) (request_of w (data_of s)))
    image →
  dir_ready w st assets_dir →
  save_fault w (original_path_of s) PNG image = None →
  save_fault w (webp_path_of s) WebP image = Some (e, leaves_file) →
  (run_single s w st).1 = inr false ∧
  files (fs (run_single s w st).2) !! original_path_of s
  = Some (Stored PNG 95 image) ∧
  trace (run_single s w st).2
  = trace st ++
      [ EvPost (request_of w (data_of s));
        EvMakedirs assets_dir true;
        EvSave (original_path_of s) PNG 95;
        EvSave (webp_path_of s) WebP 85;
        EvPrint (if is_RequestException e
                 then MsgRequestFailed "" e
                 else MsgErrorGenerating (error_label s) e) ].
Proof.
  intros Hkey Hans Hdir H1 H2. rewrite (run_single_fetched s w st image) by done.
  unfold store_single, try_except, bind.
  rewrite os_makedirs_ready by done.
  unfold Image_save; cbn [fs trace log set_fs]. rewrite H1.
  cbn [fs trace set_fs]. rewrite H2.
  rewrite except_single_run. unfold log, set_fs.
  split; [done|]. split.
  - destruct leaves_file; cbn [snd fs files].
    + rewrite lookup_insert_ne by (apply not_eq_sym, single_paths_differ).
      apply lookup_insert_eq.
    + apply lookup_insert_eq.
  - destruct leaves_file; cbn [snd fs trace]; by rewrite <- !app_assoc.
Qed.

(** X10 on the file system that refuses every WebP. *)
Lemma X10_witness :
  (run_single HeroImage (refusing_world WebP) empty_state).1 = inr false ∧
  files (fs (run_single HeroImage (refusing_world WebP) empty_state).2)
    !! hero_original_path = Some (Stored PNG 95 sample_image).
Proof.
  destruct (X10_second_save_failure_keeps_png HeroImage (refusing_world WebP)
              empty_state sample_image OSError false) as (Hret & Hfile & _).
  - reflexivity.
  - exists 200, {[ "artifacts" := JArr [JObj sample_artifact] ]}, sample_artifact,
      [], "iVBORw==", [Byte.x89; Byte.x50; Byte.x4e; Byte.x47].
    repeat split; reflexivity.
  - right. reflexivity.
  - reflexivity.
  - reflexivity.
  - split; [exact Hret|exact Hfile].
Defined.

(** ** When a runner returns [True] *)

(** X11.  A single-image runner returns [True] exactly when the credential is
    set, the answer to its one request is a passing status with a JSON object
    whose first artifact decodes to an image, [os.makedirs] goes through and
    neither save is refused.  There is no other way to [True]. *)
Theorem X11_single_success_iff (s : Single) (w : World) (st : State) :
  (run_single s w st).1 = inr true ↔
  py_not (api_key_of w) = false ∧
  ∃ image,
    image_answer w (http w (length (posts (trace st))) (request_of w (data_of s)))
      image ∧
    dir_ready w st assets_dir ∧
    save_fault w (original_path_of s) PNG image = None ∧
    save_fault w (webp_path_of s) WebP image = None.
Proof.
  split.
  - intros Hret. destruct (run_single s w st) as [res st'] eqn:Hrun.
    cbn [fst] in Hret. subst res.
    destruct (run_single_true_inv s w st st' Hrun)
      as (Hkey & image & Hfetch & Hdir & H1 & H2).
    split; [done|]. exists image. split; [by apply fetch_image_inv|done].
  - intros (Hkey & image & Hans & Hdir & H1 & H2).
    rewrite (run_single_good s w st image); try done.
    by apply fetch_image_answer.
Qed.

Lemma icons_steps_all_good (w : World) (l : list Icon) (st st' : State) (c c' : Z) :
  icons_steps w l st c c' st' →
  (∀ i icon, l !! i = Some icon →
     ∃ image,
       fetch w (http w (length (posts (trace st)) + i) (icon_request w icon))
         = FetchImage image ∧
       save_fault w (icon_original_path icon) PNG image = None ∧
       save_fault w (icon_webp_path icon) WebP image = None) →
  c' = c + Z.of_nat (length l).
Proof.
  induction 1 as [|icon0 l st st1 st' c c1 c' Hstep Hsteps IH]; intros Hall.
  - simpl. lia.
  - destruct (Hall 0%nat icon0 eq_refl) as (image0 & Hf0 & H1 & H2).
    rewrite Nat.add_0_r in Hf0.
    destruct (icon_step_good _ _ _ _ _ _ _ Hstep Hf0 H1 H2) as [-> _].
    rewrite IH.
    + simpl length. lia.
    + intros j icon Hj. rewrite (index_shift _ _ _ _ _ _ j Hstep).
      by apply (Hall (S j)).
Qed.

(** X12.  [generate_business_icons] returns [True] exactly when the credential
    is set, [os.makedirs] goes through, and each of the six requests, in the
    order of the list, is answered with an image that both saves accept.  One
    icon that fails, for whatever reason, makes the result [False]. *)
Theorem X12_icons_success_iff (w : World) (st : State) :
  (generate_business_icons w st).1 = inr true ↔
  py_not (api_key_of w) = false ∧
  dir_ready w st icons_dir ∧
  ∀ i icon, icons !! i = Some icon →
    ∃ image,
      image_answer w (http w (length (posts (trace st)) + i) (icon_request w icon))
        image ∧
      save_fault w (icon_original_path icon) PNG image = None ∧
      save_fault w (icon_webp_path icon) WebP image = None.
Proof.
  assert (length (posts (trace st ++ [EvMakedirs icons_dir true]))
          = length (posts (trace st))) as Hlen
    by (rewrite posts_app; simpl; by rewrite app_nil_r).
  split.
  - intros Hret. destruct (generate_business_icons w st) as [res st'] eqn:Hrun.
    cbn [fst] in Hret. subst res.
    destruct (icons_run_true_inv w st st' Hrun) as (Hkey & Hdir & st2 & _ & Hsteps).
    split; [done|]. split; [done|].
    destruct (icons_steps_all _ _ _ _ _ _ Hsteps eq_refl) as [_ Hall].
    intros i icon Hi. destruct (Hall i icon Hi) as (image & Hf & H1 & H2 & _).
    cbn [trace] in Hf. rewrite Hlen in Hf.
    exists image. split; [by apply fetch_image_inv|done].
  - intros (Hkey & Hdir & Hall).
    destruct (icons_run_ready w st Hkey Hdir) as (c & st2 & -> & Hsteps).
    rewrite (icons_steps_all_good _ _ _ _ _ _ Hsteps); [done|].
    intros i icon Hi. destruct (Hall i icon Hi) as (image & Hans & H1 & H2).
    exists image. cbn [trace]. rewrite Hlen.
    split; [by apply fetch_image_answer|done].
Qed.

(** ** One icon among the six *)

(** X13.  The icons are independent of each other: an icon whose own request
    is answered with an image that both saves accept has its two files on disk
    when the runner returns, with that image, whatever happened to the five
    other icons. *)
Theorem X13_good_icon_is_stored (w : World) (st : State) (i : nat) (icon : Icon)
    (image : Image) :
  py_not (api_key_of w) = false →
  dir_ready w st icons_dir →
  icons !! i = Some icon →
  image_answer w (http w (length (posts (trace st)) + i) (icon_request w icon))
    image →
  save_fault w (icon_original_path icon) PNG image = None →
  save_fault w (icon_webp_path icon) WebP image = None →
  files (fs (generate_business_icons w st).2) !! icon_original_path icon
  = Some (Stored PNG 95 image) ∧
  files (fs (generate_business_icons w st).2) !! icon_webp_path icon
  = Some (Stored WebP 85 image).
Proof.
  intros Hkey Hdir Hi Hans H1 H2.
  destruct (icons_run_ready w st Hkey Hdir) as (c & st2 & -> & Hsteps).
  cbn [snd fs].
  apply (icons_steps_one_good _ _ _ _ _ _ i icon image Hsteps icons_paths_NoDup Hi);
    [|done..].
  cbn [trace]. rewrite posts_app; simpl. rewrite app_nil_r.
  by apply fetch_image_answer.
Qed.

(** X13 when only the third answer is good: the third icon is on disk. *)
Lemma X13_witness :
  (generate_business_icons third_only_world empty_state).1 = inr false ∧
  files (fs (generate_business_icons third_only_world empty_state).2)
    !! icon_original_path needs_assessment = Some (Stored PNG 95 sample_image) ∧
  files (fs (generate_business_icons third_only_world empty_state).2)
    !! icon_webp_path needs_assessment = Some (Stored WebP 85 sample_image).
Proof.
  split; [vm_compute; reflexivity|].
  apply (X13_good_icon_is_stored third_only_world empty_state 2 needs_assessment
           sample_image).
  - reflexivity.
  - right. reflexivity.
  - reflexivity.
  - exists 200, {[ "artifacts" := JArr [JObj sample_artifact] ]}, sample_artifact,
      [], "iVBORw==", [Byte.x89; Byte.x50; Byte.x4e; Byte.x47].
    repeat split; reflexivity.
  - reflexivity.
  - reflexivity.
Defined.

(** ** What a run leaves alone *)

Lemma store_single_frame (s : Single) (w : World) (image : Image) (st : State)
    (p : string) :
  p ≠ original_path_of s → p ≠ webp_path_of s →
  files (fs (store_single s w image st).2) !! p = files (fs st) !! p.
Proof.
  intros Hp Hp'. unfold store_single, try_except, bind.
  pose proof (os_makedirs_files w assets_dir st) as Hmf.
  destruct (os_makedirs w assets_dir true st) as [[e|[]] st1]; cbn [snd] in *.
  { rewrite except_single_run; cbn [snd log fs]. by rewrite Hmf. }
  destruct (Image_save_frame w image (original_path_of s) PNG 95 st1)
    as (_ & Hf1 & _).
  destruct (Image_save w image (original_path_of s) PNG 95 st1) as [[e|[]] st2];
    cbn [snd] in *.
  { rewrite except_single_run; cbn [snd log fs]. by rewrite Hf1, Hmf. }
  destruct (Image_save_frame w image (webp_path_of s) WebP 85 st2)
    as (_ & Hf2 & _).
  destruct (Image_save w image (webp_path_of s) WebP 85 st2) as [[e|[]] st3];
    cbn [snd] in *.
  { rewrite except_single_run; cbn [snd log fs]. by rewrite Hf2, Hf1, Hmf. }
  unfold print, ret, log; cbn [snd fs]. by rewrite Hf2, Hf1, Hmf.
Qed.

Lemma icons_output_paths : output_paths BusinessIcons = flat_map icon_paths icons.
Proof. reflexivity. Qed.

Lemma icons_run_frame (w : World) (st : State) (p : string) :
  p ∉ output_paths BusinessIcons →
  files (fs (generate_business_icons w st).2) !! p = files (fs st) !! p.
Proof.
  intros Hp. destruct (py_not (api_key_of w)) eqn:Hkey.
  { pose proof (run_no_key BusinessIcons w st Hkey) as Hrun. cbn [run] in Hrun.
    by rewrite Hrun. }
  destruct (dir_ready_dec w st icons_dir) as [Hdir|(Hd & e & He)].
  - destruct (icons_run_ready w st Hkey Hdir) as (c & st2 & -> & Hsteps).
    cbn [snd fs]. rewrite icons_output_paths in Hp.
    rewrite (icons_steps_frame _ _ _ _ _ _ _ Hsteps Hp); cbn [fs].
    by rewrite files_fs_with_dir.
  - by rewrite (icons_run_refused w st e).
Qed.

Lemma run_single_frame (s : Single) (w : World) (st : State) (p : string) :
  p ∉ output_paths (SingleImage s) →
  files (fs (run_single s w st).2) !! p = files (fs st) !! p.
Proof.
  intros Hp. destruct (py_not (api_key_of w)) eqn:Hkey.
  { pose proof (run_no_key (SingleImage s) w st Hkey) as Hrun. cbn [run] in Hrun.
    by rewrite Hrun. }
  rewrite run_single_spec by done; cbv zeta.
  destruct (fetch w _) as [e|result|image].
  - by rewrite except_single_run.
  - done.
  - rewrite store_single_frame; [done| |];
      intros ->; apply Hp; unfold output_paths, outputs_of; simpl;
      repeat constructor.
Qed.

(** X14.  A run creates, overwrites or removes no file but its own: every
    path other than the output paths of the script holds after the run what it
    held before.  This holds in every world, whether the run succeeds, fails
    or raises. *)
Theorem X14_run_touches_only_its_outputs (r : Runner) (w : World) (st : State)
    (p : string) :
  p ∉ output_paths r →
  files (fs (run r w st).2) !! p = files (fs st) !! p.
Proof.
  intros Hp. destruct r as [|s]; cbn [run].
  - by apply icons_run_frame.
  - by apply run_single_frame.
Qed.

(** X14 on a path no script writes to. *)
Lemma X14_witness :
  files (fs (run BusinessIcons good_world empty_state).2) !! "/tmp/notes.txt" = None.
Proof.
  rewrite (X14_run_touches_only_its_outputs BusinessIcons good_world empty_state
             "/tmp/notes.txt").
  - reflexivity.
  - apply (bool_decide_unpack _). vm_compute. reflexivity.
Defined.

Lemma flat_map_disjoint {A B} (f : A → list B) (l : list A) (i j : nat) (x y : A)
    (b : B) :
  NoDup (flat_map f l) →
  l !! i = Some x → l !! j = Some y → i ≠ j →
  b ∈ f x → b ∉ f y.
Proof.
  revert i j. induction l as [|a l IH]; intros i j Hnd Hi Hj Hij Hx; [done|].
  change (flat_map f (a :: l)) with (f a ++ flat_map f l) in Hnd.
  apply NoDup_app in Hnd as (_ & Hdisj & Hnd).
  assert (∀ k z, l !! k = Some z → ∀ c, c ∈ f z → c ∈ flat_map f l) as Hin.
  { intros k z Hk c Hc. apply list_elem_of_In, in_flat_map. exists z.
    split; apply list_elem_of_In; [by eapply list_elem_of_lookup_2|done]. }
  destruct i as [|i], j as [|j]; simpl in Hi, Hj; [done| | |].
  - injection Hi as ->. intros Hy. apply (Hdisj b Hx). by eapply Hin.
  - injection Hj as ->. intros Hy. apply (Hdisj b Hy). by eapply Hin.
  - apply (IH i j); [done..|lia|done].
Qed.

Lemma all_outputs_NoDup : NoDup (flat_map output_paths all_runners).
Proof. apply (bool_decide_unpack _). vm_compute. reflexivity. Qed.

Lemma runner_index (r : Runner) :
  ∃ i, all_runners !! i = Some r ∧
       ∀ r' j, all_runners !! j = Some r' → r ≠ r' → i ≠ j.
Proof.
  destruct r as [|[]];
    [exists 0%nat|exists 1%nat|exists 2%nat|exists 3%nat];
    (split; [reflexivity|]);
    intros r' [|[|[|[|j]]]] Hj Hne; simpl in Hj; try done;
    injection Hj as <-; done.
Qed.

(** X15.  The four scripts write to eighteen different paths, so no script
    ever changes an output file of another: after a run of one runner, in any
    world, every output path of each of the three others holds what it held
    before. *)
Theorem X15_scripts_do_not_overwrite_each_other (r r' : Runner) (w : World)
    (st : State) (p : string) :
  r ≠ r' →
  p ∈ output_paths r' →
  files (fs (run r w st).2) !! p = files (fs st) !! p.
Proof.
  intros Hne Hp.
  assert (p ∉ output_paths r) as Hout; [|destruct r as [|s]; cbn [run];
    [by apply icons_run_frame|by apply run_single_frame]].
  destruct (runner_index r) as (i & Hi & Hidx).
  destruct (runner_index r') as (j & Hj & _).
  apply (flat_map_disjoint output_paths all_runners j i r' r p all_outputs_NoDup);
    [done..| |done].
  intros <-. by apply (Hidx r' j).
Qed.

(** X15: a run of the icons script keeps the hero image of an earlier run of
    the hero script. *)
Lemma X15_witness :
  files (fs (run BusinessIcons good_world
               (run (SingleImage HeroImage) good_world empty_state).2).2)
    !! hero_original_path = Some (Stored PNG 95 sample_image).
Proof.
  rewrite (X15_scripts_do_not_overwrite_each_other BusinessIcons
             (SingleImage HeroImage) good_world _ hero_original_path).
  - vm_compute. reflexivity.
  - discriminate.
  - apply (bool_decide_unpack _). vm_compute. reflexivity.
Defined.

(** ** The icons directory lies under the assets directory *)

Lemma assets_dir_above_icons_dir : assets_dir ∈ ancestors icons_dir.
Proof. apply (bool_decide_unpack _). vm_compute. reflexivity. Qed.

(** X16.  The directory of the icons lies under the assets directory of the
    three other scripts, and [os.makedirs] creates the missing ancestors: once
    [generate_business_icons] has created its directory, the assets directory
    exists as well, so the [os.makedirs] of a single-image script that runs
    afterwards goes through in every world. *)
Theorem X16_icons_run_prepares_assets_dir (w : World) (st : State) :
  py_not (api_key_of w) = false →
  icons_dir ∉ dirs (fs st) →
  mkdir_fault w icons_dir = None →
  assets_dir ∈ dirs (fs (generate_business_icons w st).2) ∧
  ∀ w', dir_ready w' (generate_business_icons w st).2 assets_dir.
Proof.
  intros Hkey Hd Hfault.
  assert (dir_ready w st icons_dir) as Hdir by (by right).
  destruct (icons_run_ready w st Hkey Hdir) as (c & st2 & -> & Hsteps).
  assert (assets_dir ∈ dirs (fs st2)) as Hin.
  { rewrite (icons_steps_dirs _ _ _ _ _ _ Hsteps); cbn [fs].
    unfold fs_with_dir. rewrite bool_decide_eq_false_2 by done. cbn [dirs].
    apply elem_of_union_r, elem_of_list_to_set, assets_dir_above_icons_dir. }
  split; [done|]. intros w'. by left.
Qed.

(** X16 with the service down: the directories are there all the same. *)
Lemma X16_witness :
  assets_dir ∈ dirs (fs (generate_business_icons down_world empty_state).2).
Proof.
  apply (X16_icons_run_prepares_assets_dir down_world empty_state).
  - reflexivity.
  - apply not_elem_of_empty.
  - reflexivity.
Defined.
